(** * Inventory ledger of the brush-factory dashboard

    Shallow embedding of the stock-consistency core of
    [dashboard_fabrica_pinceles.py]: the raw-material ledger
    ([actualizar_stock]), the movement log ([add_movimiento]), the recipe
    resolver ([compute_mp_needs]) and the button handlers of the pages
    "Entradas", "Stock Actual", "Produccion" and "Pedidos".

    Modelling conventions.
    - The seven CSV files of [FILES] are the fields of [Archivos]; each is
      the list of rows of the table, in file order.  [save_df] replaces a
      table, [pd.read_csv] returns it as saved.  What [read_df] itself does
      on top of [pd.read_csv] (trimming the key columns) is modelled.
    - Quantities are Python [int]s, hence [Z].  Text cells are [string]s; the
      empty string stands for an empty cell.  [ultima_entrada] is an
      [option]: [None] is [pd.NaT].
    - [datetime.now()] is an explicit argument of every operation that
      reads the clock.
    - Streamlit calls that end the script run ([st.rerun()], [st.stop()], a
      [return] out of the page function) are the outcome [corta] of the
      monad [M]; everything saved before them stays saved.  Messages shown
      with [st.error], [st.warning] and [st.success] are collected in order.
    - A Python exception that nothing catches ends the run in the same way,
      after the message [Excepcion]. *)

From Stdlib Require Import ZArith List String Ascii Bool Lia DecimalString.
From Stdlib Require Import DecimalZ Sorted.
Import ListNotations.

Local Open Scope string_scope.
Local Open Scope Z_scope.
Local Open Scope list_scope.

(** ** Tables *)

Module Cat.
Record fila := mk
  { tipo : string; variante : string; stock_minimo : Z }.
End Cat.

Module Stock.
Record fila := mk
  { tipo : string;
    variante : string;
    stock_minimo : Z;
    stock_actual : Z;
    ultima_entrada : option string;
    proveedor_mas_frecuente : string }.

Definition con_stock_actual (q : Z) (r : fila) : fila :=
  mk (tipo r) (variante r) (stock_minimo r) q
     (ultima_entrada r) (proveedor_mas_frecuente r).

Definition con_ultima_entrada (t : option string) (r : fila) : fila :=
  mk (tipo r) (variante r) (stock_minimo r) (stock_actual r)
     t (proveedor_mas_frecuente r).

Definition con_proveedor (p : string) (r : fila) : fila :=
  mk (tipo r) (variante r) (stock_minimo r) (stock_actual r)
     (ultima_entrada r) p.

Definition con_clave (t v : string) (r : fila) : fila :=
  mk t v (stock_minimo r) (stock_actual r)
     (ultima_entrada r) (proveedor_mas_frecuente r).
End Stock.

Module Mov.
Record fila := mk
  { fecha : string;
    tipo_movimiento : string;  (* ENTRADA | SALIDA | AJUSTE *)
    tipo : string;
    variante : string;
    cantidad : Z;
    proveedor : string;
    documento : string;
    observaciones : string;
    usuario : string }.
End Mov.

Module Prod.
Record fila := mk
  { tipo_producto : string; variante_producto : string; stock_actual : Z }.

Definition con_stock_actual (q : Z) (r : fila) : fila :=
  mk (tipo_producto r) (variante_producto r) q.
End Prod.

Module Produccion.
Record fila := mk
  { fecha : string;
    tipo_producto : string;
    cantidad : Z;
    usuario : string;
    nota : string;
    variante_producto : option string }.
End Produccion.

Module Pedido.
Record fila := mk
  { id : Z;
    fecha : string;
    cliente : string;
    tipo_producto : string;
    variante_producto : string;
    cantidad : Z;
    fecha_entrega : string;
    estado : string;
    nota : string }.

Definition con_estado (e : string) (r : fila) : fila :=
  mk (id r) (fecha r) (cliente r) (tipo_producto r) (variante_producto r)
     (cantidad r) (fecha_entrega r) e (nota r).
End Pedido.

Module Desp.
Record fila := mk
  { id_despacho : Z;
    fecha : string;
    pedido_id : Z;
    cliente : string;
    tipo_producto : string;
    variante_producto : string;
    cantidad : Z;
    nota : string;
    usuario : string }.
End Desp.

(** The files of [FILES]. *)
Record Archivos := mkArchivos
  { catalogo : list Cat.fila;
    stock_mp : list Stock.fila;
    movimientos : list Mov.fila;
    productos : list Prod.fila;
    produccion : list Produccion.fila;
    pedidos : list Pedido.fila;
    despachos : list Desp.fila }.

Definition con_stock_mp (l : list Stock.fila) (a : Archivos) : Archivos :=
  mkArchivos (catalogo a) l (movimientos a) (productos a) (produccion a)
             (pedidos a) (despachos a).

Definition con_movimientos (l : list Mov.fila) (a : Archivos) : Archivos :=
  mkArchivos (catalogo a) (stock_mp a) l (productos a) (produccion a)
             (pedidos a) (despachos a).

Definition con_productos (l : list Prod.fila) (a : Archivos) : Archivos :=
  mkArchivos (catalogo a) (stock_mp a) (movimientos a) l (produccion a)
             (pedidos a) (despachos a).

Definition con_produccion (l : list Produccion.fila) (a : Archivos) : Archivos :=
  mkArchivos (catalogo a) (stock_mp a) (movimientos a) (productos a) l
             (pedidos a) (despachos a).

Definition con_pedidos (l : list Pedido.fila) (a : Archivos) : Archivos :=
  mkArchivos (catalogo a) (stock_mp a) (movimientos a) (productos a)
             (produccion a) l (despachos a).

Definition con_despachos (l : list Desp.fila) (a : Archivos) : Archivos :=
  mkArchivos (catalogo a) (stock_mp a) (movimientos a) (productos a)
             (produccion a) (pedidos a) l.

(** ** Messages shown to the operator *)

(** One line of a stock-shortage report. *)
Inductive Falta :=
| NoExiste (tipo variante : string)
| Insuficiente (tipo variante : string) (disp req : Z).

Inductive Aviso :=
| WarnSinCatalogo                                   (* actualizar_stock, l.207 *)
| ErrFilasCoincidiendo (n : nat) (tipo variante : string)       (* l.223 *)
| ErrVarianteInvalida
| ErrNoEnCatalogo (tipo variante : string)
| ErrCatalogoDuplicado (tipo variante : string)
| OkEntrada (tipo variante : string) (nuevo : option Z)
| ErrNoSePudoActualizar
| OkAjuste (nuevo : option Z)
| ErrAjusteNegativo
| OkFusion
| ErrFaltaStock (faltas : list Falta)
| ErrFalloDescontar (tipo variante : string)
| OkProduccion
| WarnPedidoNoEncontrado (pid : Z)
| WarnCantidadInvalida
| WarnFaltaMP (faltas : list Falta)
| WarnFalloDescontar (tipo variante : string)
| OkProduccionPedido (pid : Z)
| WarnSinTerminados (tipo variante : string)
| WarnTerminadosInsuficiente (disp req : Z)
| OkDespacho (pid : Z)
| Excepcion.                      (* the traceback of an uncaught exception *)

(** ** The script monad: files, messages, early exit *)

Record Res (A : Type) := mkRes
  { valor : option A;         (* [None]: the run was cut short *)
    archivos : Archivos;
    avisos : list Aviso }.
Arguments mkRes {A}.
Arguments valor {A}.
Arguments archivos {A}.
Arguments avisos {A}.

Definition M (A : Type) : Type := Archivos -> Res A.

Definition ret {A} (a : A) : M A := fun s => mkRes (Some a) s [].

Definition bind {A B} (m : M A) (f : A -> M B) : M B :=
  fun s =>
    let r := m s in
    match valor r with
    | None => mkRes None (archivos r) (avisos r)
    | Some a =>
        let r' := f a (archivos r) in
        mkRes (valor r') (archivos r') (avisos r ++ avisos r')
    end.

Notation "x <- m ;; k" := (bind m (fun x => k))
  (at level 61, m at next level, right associativity).
Notation "m ;;; k" := (bind m (fun _ => k))
  (at level 61, right associativity).

(** [st.rerun()], [st.stop()] or [return] from the page function. *)
Definition corta {A} : M A := fun s => mkRes None s [].

Definition st_aviso (a : Aviso) : M unit := fun s => mkRes (Some tt) s [a].

Definition leer {T} (campo : Archivos -> T) : M T :=
  fun s => mkRes (Some (campo s)) s [].

Definition guardar (f : Archivos -> Archivos) : M unit :=
  fun s => mkRes (Some tt) (f s) [].

(** ** Text helpers *)

(** The ASCII characters that Python's [str.strip()] removes (white space
    outside ASCII is not modelled). *)
Definition es_espacio (c : ascii) : bool :=
  let n := nat_of_ascii c in
  ((9 <=? n)%nat && (n <=? 13)%nat) || ((28 <=? n)%nat && (n <=? 32)%nat).

Fixpoint lstrip (s : string) : string :=
  match s with
  | EmptyString => EmptyString
  | String c r => if es_espacio c then lstrip r else s
  end.

Fixpoint rstrip (s : string) : string :=
  match s with
  | EmptyString => EmptyString
  | String c r =>
      match rstrip r with
      | EmptyString => if es_espacio c then EmptyString else String c EmptyString
      | r' => String c r'
      end
  end.

Definition strip (s : string) : string := rstrip (lstrip s).

Definition no_vacio (s : string) : bool :=
  match s with EmptyString => false | _ => true end.

(** ** read_df *)

(** [read_df]: the key columns of the stock table are trimmed on read. *)
Definition normaliza_stock (r : Stock.fila) : Stock.fila :=
  Stock.con_clave (strip (Stock.tipo r)) (strip (Stock.variante r)) r.

Definition normaliza_cat (r : Cat.fila) : Cat.fila :=
  Cat.mk (strip (Cat.tipo r)) (strip (Cat.variante r)) (Cat.stock_minimo r).

Definition normaliza_mov (r : Mov.fila) : Mov.fila :=
  Mov.mk (Mov.fecha r) (strip (Mov.tipo_movimiento r)) (strip (Mov.tipo r))
         (strip (Mov.variante r)) (Mov.cantidad r) (strip (Mov.proveedor r))
         (strip (Mov.documento r)) (strip (Mov.observaciones r))
         (strip (Mov.usuario r)).

Definition read_stock_mp : M (list Stock.fila) :=
  leer (fun s => map normaliza_stock (stock_mp s)).
Definition read_catalogo : M (list Cat.fila) :=
  leer (fun s => map normaliza_cat (catalogo s)).
Definition read_movimientos : M (list Mov.fila) :=
  leer (fun s => map normaliza_mov (movimientos s)).
Definition read_productos : M (list Prod.fila) := leer productos.
Definition read_produccion : M (list Produccion.fila) := leer produccion.
Definition read_pedidos : M (list Pedido.fila) := leer pedidos.
Definition read_despachos : M (list Desp.fila) := leer despachos.

(** ** add_movimiento *)

Definition add_movimiento (fecha tipo_mov tipo variante : string) (cantidad : Z)
    (proveedor documento observaciones usuario : string) : M unit :=
  mov <- read_movimientos ;;
  let fila := Mov.mk fecha tipo_mov tipo variante cantidad
                     proveedor documento observaciones usuario in
  guardar (con_movimientos (mov ++ [fila])).

(** ** actualizar_stock *)

(** [(stock["tipo"] == tipo) & (stock["variante"] == variante)] *)
Definition mask_stock (tipo variante : string) (r : Stock.fila) : bool :=
  (Stock.tipo r =? tipo)%string && (Stock.variante r =? variante)%string.

(** [stock.index[mask].tolist()], counting rows from [i]. *)
Fixpoint indices {A} (mask : A -> bool) (i : nat) (l : list A) : list nat :=
  match l with
  | [] => []
  | r :: l' => if mask r then i :: indices mask (S i) l'
               else indices mask (S i) l'
  end.

(** [df.at[idx, col] = ...] as a row update. *)
Fixpoint en_fila {A} (idx : nat) (f : A -> A) (l : list A) : list A :=
  match l, idx with
  | [], _ => []
  | r :: l', O => f r :: l'
  | r :: l', S k => r :: en_fila k f l'
  end.

(** [Series.value_counts()]: one entry per distinct value, most frequent
    first; values with equal counts keep the order of first appearance. *)
Fixpoint cuenta_valor (v : string) (acc : list (string * nat)) : list (string * nat) :=
  match acc with
  | [] => [(v, 1%nat)]
  | (w, n) :: acc' => if (w =? v)%string then (w, S n) :: acc'
                      else (w, n) :: cuenta_valor v acc'
  end.

Fixpoint inserta_desc (x : string * nat) (l : list (string * nat)) : list (string * nat) :=
  match l with
  | [] => [x]
  | y :: l' => if (snd y <=? snd x)%nat then x :: l else y :: inserta_desc x l'
  end.

Definition value_counts (l : list string) : list (string * nat) :=
  let conteo := fold_left (fun acc v => cuenta_valor v acc) l [] in
  fold_right inserta_desc [] conteo.

Definition es_entrada_de (tipo variante : string) (m : Mov.fila) : bool :=
  (Mov.tipo m =? tipo)%string && (Mov.variante m =? variante)%string
  && (Mov.tipo_movimiento m =? "ENTRADA")%string.

Definition actualizar_stock (tipo variante : string) (delta : Z)
    (proveedor : string) (es_entrada : bool) (ahora : string)
  : M (bool * option Z) :=
  stock <- read_stock_mp ;;
  stock <- (if existsb (mask_stock tipo variante) stock then ret stock
            else
              st_aviso WarnSinCatalogo ;;;
              ret (stock ++ [Stock.mk tipo variante 0 0 None proveedor])) ;;
  let idxs := indices (mask_stock tipo variante) 0 stock in
  match idxs with
  | [idx] =>
      match nth_error stock idx with
      | None => st_aviso Excepcion ;;; corta
      | Some fila =>
          let nuevo_stock := Stock.stock_actual fila + delta in
          if nuevo_stock <? 0 then ret (false, Some (Stock.stock_actual fila))
          else
            let stock := en_fila idx (Stock.con_stock_actual nuevo_stock) stock in
            stock <- (if es_entrada then
                        let stock :=
                          en_fila idx (Stock.con_ultima_entrada (Some ahora)) stock in
                        if no_vacio proveedor then
                          mov <- read_movimientos ;;
                          match value_counts
                                  (map Mov.proveedor
                                       (filter (es_entrada_de tipo variante) mov)) with
                          | [] => ret stock
                          | (p, _) :: _ => ret (en_fila idx (Stock.con_proveedor p) stock)
                          end
                        else ret stock
                      else ret stock) ;;
            guardar (con_stock_mp stock) ;;;
            ret (true, Some nuevo_stock)
      end
  | _ =>
      st_aviso (ErrFilasCoincidiendo (List.length idxs) tipo variante) ;;;
      ret (false, None)
  end.

(** ** Recipe resolver *)

(** Python's [s.split(sep)] for a non-empty separator: the separator is
    searched left to right and matches do not overlap.  [split_desde sep
    salta s] returns the piece being built and the pieces after it;
    [salta] counts the characters of a matched separator still to skip. *)
Fixpoint split_desde (sep : string) (salta : nat) (s : string) : string * list string :=
  match s with
  | EmptyString => (EmptyString, [])
  | String c r =>
      match salta with
      | S k => split_desde sep k r
      | O =>
          if prefix sep s then
            let '(p, ps) := split_desde sep (Nat.pred (String.length sep)) r in
            (EmptyString, p :: ps)
          else
            let '(p, ps) := split_desde sep O r in
            (String c p, ps)
      end
  end.

Definition split (sep s : string) : list string :=
  let '(p, ps) := split_desde sep O s in p :: ps.

(** A consumption line [(tipo, variante, cantidad)]. *)
Definition Item : Type := string * string * Z.

Definition compute_mp_needs (tipo_prod variante_producto : string) (cantidad : Z)
  : list Item :=
  if (tipo_prod =? "pincel normal")%string && no_vacio variante_producto then
    let medida_sel := hd EmptyString (split " - " variante_producto) in
    let mango_var := variante_producto in
    let chapita_var := medida_sel in
    [("Mango", mango_var, cantidad); ("Chapita", chapita_var, cantidad)]
  else if (tipo_prod =? "pinceleta")%string && no_vacio variante_producto then
    let '(color_sel, chapita_sel) :=
      match split " - " variante_producto with
      | [a; b] => (a, b)
      | _ => (EmptyString, EmptyString)          (* except ValueError *)
      end in
    if no_vacio color_sel && no_vacio chapita_sel then
      [("Manguito pinceleta", color_sel, cantidad);
       ("Chapita pinceleta", chapita_sel, cantidad);
       ("Cerda pinceleta", "estándar", cantidad)]
    else []
  else [].

(** ** Stock validation shared by the production paths *)

(** [stock_df["tipo"].astype(str).str.strip() == str(t).strip() & ...] *)
Definition mask_stock_strip (t v : string) (r : Stock.fila) : bool :=
  (strip (Stock.tipo r) =? strip t)%string
  && (strip (Stock.variante r) =? strip v)%string.

Definition falta_de (stock_df : list Stock.fila) (it : Item) : list Falta :=
  let '(t, v, c) := it in
  match filter (mask_stock_strip t v) stock_df with
  | [] => [NoExiste t v]
  | r :: _ =>
      let disp := Stock.stock_actual r in
      if disp <? c then [Insuficiente t v disp c] else []
  end.

Definition validar (stock_df : list Stock.fila) (items : list Item) : list Falta :=
  flat_map (falta_de stock_df) items.

Definition mask_prod (tipo variante : string) (r : Prod.fila) : bool :=
  (strip (Prod.tipo_producto r) =? tipo)%string
  && (strip (Prod.variante_producto r) =? variante)%string.

(** Credit of finished goods, creating the line when absent. *)
Definition acreditar_terminado (tipo variante : string) (mask : Prod.fila -> bool)
    (cant : Z) : M unit :=
  prods <- read_productos ;;
  let prods := if existsb mask prods then prods
               else prods ++ [Prod.mk tipo variante 0] in
  match indices mask 0 prods with
  | [] => st_aviso Excepcion ;;; corta
  | idx :: _ =>
      match nth_error prods idx with
      | None => st_aviso Excepcion ;;; corta
      | Some fila =>
          guardar (con_productos
                     (en_fila idx (Prod.con_stock_actual (Prod.stock_actual fila + cant))
                              prods))
      end
  end.

(** ** Page "Entradas de Materia Prima": button "Registrar entrada" *)

Definition mask_cat (tipo_s variante_s : string) (c : Cat.fila) : bool :=
  (strip (Cat.tipo c) =? tipo_s)%string
  && (strip (Cat.variante c) =? variante_s)%string.

Definition registrar_entrada (tipo variante : string) (cantidad : Z)
    (fecha proveedor documento obs usuario ahora : string) : M unit :=
  catalogo <- read_catalogo ;;
  let tipo_s := strip tipo in
  let variante_s := strip variante in
  if negb (no_vacio variante_s) then st_aviso ErrVarianteInvalida ;;; corta
  else
    let count_cat := List.length (filter (mask_cat tipo_s variante_s) catalogo) in
    match count_cat with
    | O => st_aviso (ErrNoEnCatalogo tipo_s variante_s) ;;; corta
    | S (S _) => st_aviso (ErrCatalogoDuplicado tipo_s variante_s) ;;; corta
    | S O =>
        r <- actualizar_stock tipo_s variante_s cantidad proveedor true ahora ;;
        let '(ok, nuevo) := r in
        if ok then
          add_movimiento fecha "ENTRADA" tipo_s variante_s cantidad
                         proveedor documento obs usuario ;;;
          st_aviso (OkEntrada tipo_s variante_s nuevo)
        else st_aviso ErrNoSePudoActualizar
    end.

(** ** Page "Stock Actual": button "Aplicar ajuste" *)

Definition aplicar_ajuste (tipo variante : string) (delta : Z)
    (obs usuario ahora : string) : M unit :=
  r <- actualizar_stock tipo variante delta "" false ahora ;;
  let '(ok, nuevo) := r in
  if ok then
    let mov_tipo := if delta >=? 0 then "AJUSTE" else "SALIDA" in
    add_movimiento ahora mov_tipo tipo variante (Z.abs delta) "" "" obs usuario ;;;
    st_aviso (OkAjuste nuevo) ;;;
    corta
  else st_aviso ErrAjusteNegativo.

(** ** Page "Stock Actual": button "Fusionar duplicados" *)

Definition Clave : Type := string * string.

Definition clave (r : Stock.fila) : Clave := (Stock.tipo r, Stock.variante r).

(** Order of the group keys of [groupby(["tipo", "variante"])]. *)
Definition clave_compare (a b : Clave) : comparison :=
  match String.compare (fst a) (fst b) with
  | Eq => String.compare (snd a) (snd b)
  | c => c
  end.

Fixpoint inserta_clave (k : Clave) (l : list Clave) : list Clave :=
  match l with
  | [] => [k]
  | h :: t =>
      match clave_compare k h with
      | Lt => k :: l
      | Eq => l
      | Gt => h :: inserta_clave k t
      end
  end.

(** The distinct keys of the table, sorted. *)
Definition claves (base : list Stock.fila) : list Clave :=
  fold_right inserta_clave [] (map clave base).

Definition tiene_clave (k : Clave) (r : Stock.fila) : bool :=
  (Stock.tipo r =? fst k)%string && (Stock.variante r =? snd k)%string.

(** ["max"] on a numeric column. *)
Definition agg_max (l : list Z) : Z :=
  match l with
  | [] => 0
  | x :: r => fold_left Z.max r x
  end.

(** ["sum"]. *)
Definition agg_sum (l : list Z) : Z := fold_left Z.add l 0.

(** ["max"] on [ultima_entrada].  [pd.read_csv] leaves the column as text
    with empty cells, for which pandas takes the maximum group by group
    with [Series.max()]: the empty cells of the group are filled with
    [-inf] and the cells compared with [>=].  A group of empty cells gives
    an empty cell and a group of dates the greatest of them, as text; a
    group that holds both a date and an empty cell compares a text with a
    number and raises [TypeError], the answer [None]. *)
Definition es_vacia (x : option string) : bool :=
  match x with None => true | Some _ => false end.

Fixpoint max_texto (x : string) (l : list (option string)) : option string :=
  match l with
  | [] => Some x
  | None :: _ => None
  | Some y :: r => max_texto (if String.ltb x y then y else x) r
  end.

Definition agg_max_fecha (l : list (option string)) : option (option string) :=
  match l with
  | [] => Some None
  | None :: r => if forallb es_vacia r then Some None else None
  | Some x :: r => option_map Some (max_texto x r)
  end.

(** ["first"]: the first value of the group that is not missing. *)
Fixpoint agg_first (l : list string) : string :=
  match l with
  | [] => EmptyString
  | x :: r => if no_vacio x then x else agg_first r
  end.

(** The row of one group; [None] when its maximum of dates raises. *)
Definition agrega (k : Clave) (grupo : list Stock.fila) : option Stock.fila :=
  match agg_max_fecha (map Stock.ultima_entrada grupo) with
  | None => None
  | Some ultima =>
      Some (Stock.mk (fst k) (snd k)
                     (agg_max (map Stock.stock_minimo grupo))
                     (agg_sum (map Stock.stock_actual grupo))
                     ultima
                     (agg_first (map Stock.proveedor_mas_frecuente grupo)))
  end.

(** The results of all the groups, unless one of them raised. *)
Fixpoint todas {A} (l : list (option A)) : option (list A) :=
  match l with
  | [] => Some []
  | None :: _ => None
  | Some x :: r =>
      match todas r with
      | None => None
      | Some r' => Some (x :: r')
      end
  end.

(** [base.groupby(["tipo", "variante"], as_index=False).agg({...})]:
    the merged table, or [None] for the [TypeError] out of [agg]. *)
Definition agrupar (base : list Stock.fila) : option (list Stock.fila) :=
  todas (map (fun k => agrega k (filter (tiene_clave k) base)) (claves base)).

(** [dups[dups["_cnt"] > 1]] is not empty. *)
Definition hay_duplicados (stock : list Stock.fila) : bool :=
  existsb (fun k => (1 <? List.length (filter (tiene_clave k) stock))%nat)
          (claves stock).

Definition fusionar_duplicados : M unit :=
  stock <- read_stock_mp ;;
  if hay_duplicados stock then
    base <- read_stock_mp ;;
    match agrupar base with
    | None => st_aviso Excepcion ;;; corta      (* nothing caught, nothing saved *)
    | Some agg =>
        guardar (con_stock_mp agg) ;;;
        st_aviso OkFusion ;;;
        corta
    end
  else ret tt.

(** ** Raw-material debit loop of the production paths *)

Fixpoint descontar (limpia : string -> string) (obs usuario ahora : string)
    (fallo : string -> string -> Aviso) (items : list Item) : M unit :=
  match items with
  | [] => ret tt
  | (t, v, c) :: resto =>
      r <- actualizar_stock (limpia t) (limpia v) (- c) "" false ahora ;;
      if fst r then
        add_movimiento ahora "SALIDA" (limpia t) (limpia v) c "" "" obs usuario ;;;
        descontar limpia obs usuario ahora fallo resto
      else
        st_aviso (fallo t v) ;;; corta
  end.

(** ** Page "Produccion / Salidas": button "Registrar produccion" *)

Definition manual_valido (it : Item) : bool :=
  let '(t, v, c) := it in no_vacio t && no_vacio v && (0 <? c).

Definition registrar_produccion (tipo_prod variante_producto : string) (cant : Z)
    (auto_desc : bool) (items : list Item) (nota usuario ahora : string) : M unit :=
  (* 1) production record *)
  prod <- read_produccion ;;
  let fila :=
    Produccion.mk ahora tipo_prod cant usuario nota
      (if (tipo_prod =? "pincel normal")%string && no_vacio variante_producto
       then Some variante_producto else None) in
  guardar (con_produccion (prod ++ [fila])) ;;;
  (* 2) automatic consumption *)
  auto_items <-
    (if (tipo_prod =? "pincel normal")%string && auto_desc
        && no_vacio variante_producto then
       let medida_sel := hd EmptyString (split " - " variante_producto) in
       ret [("Mango", variante_producto, cant); ("Chapita", medida_sel, cant)]
     else if (tipo_prod =? "pinceleta")%string && auto_desc
             && no_vacio variante_producto then
       match split " - " variante_producto with
       | [color_sel; chapita_sel] =>
           ret [("Manguito pinceleta", color_sel, cant);
                ("Chapita pinceleta", chapita_sel, cant);
                ("Cerda pinceleta", "estándar", cant)]
       | _ => st_aviso Excepcion ;;; corta
       end
     else ret []) ;;
  let manual_validos := filter manual_valido items in
  let all_items := auto_items ++ manual_validos in
  (* 3) validation *)
  stock_df <- read_stock_mp ;;
  let insuf := validar stock_df all_items in
  match insuf with
  | _ :: _ => st_aviso (ErrFaltaStock insuf) ;;; corta
  | [] =>
      (* 4) debits and movements *)
      descontar (fun s => s) ("Producción " ++ tipo_prod)%string usuario ahora
                ErrFalloDescontar all_items ;;;
      (* 5) finished goods *)
      acreditar_terminado tipo_prod variante_producto
        (mask_prod (strip tipo_prod) (strip variante_producto)) cant ;;;
      st_aviso OkProduccion
  end.

(** ** Page "Pedidos": per-order actions *)

(** The radio of each action: ["Completo"] or ["Parcial"]. *)
Inductive Modo := Completo | Parcial.

(** [f"{pid}"] *)
Definition str_Z (n : Z) : string :=
  DecimalString.NilZero.string_of_int (Z.to_int n).

(** [pedidos_base.loc[pedidos_base["id"] == pid, "estado"] = e] *)
Definition poner_estado (pid : Z) (e : string) (l : list Pedido.fila) : list Pedido.fila :=
  map (fun r => if Pedido.id r =? pid then Pedido.con_estado e r else r) l.

(** Button "Generar produccion". *)
Definition generar_produccion (pid : Z) (modo_prod : Modo) (qty_prod : Z)
    (usuario ahora : string) : M unit :=
  pedidos_base <- read_pedidos ;;
  match filter (fun r => Pedido.id r =? pid) pedidos_base with
  | [] => st_aviso (WarnPedidoNoEncontrado pid) ;;; corta
  | rb :: _ =>
      let tipo_producto := strip (Pedido.tipo_producto rb) in
      let variante_producto := strip (Pedido.variante_producto rb) in
      let solicitado := Pedido.cantidad rb in
      let qty := match modo_prod with Completo => solicitado | Parcial => qty_prod end in
      if qty <=? 0 then st_aviso WarnCantidadInvalida ;;; corta
      else
        let needs := compute_mp_needs tipo_producto variante_producto qty in
        stock_df <- read_stock_mp ;;
        let insuf := validar stock_df needs in
        match insuf with
        | _ :: _ => st_aviso (WarnFaltaMP insuf) ;;; corta
        | [] =>
            prod <- read_produccion ;;
            let fila :=
              Produccion.mk ahora tipo_producto qty usuario
                ("Generado desde pedido " ++ str_Z pid)%string
                (Some variante_producto) in
            guardar (con_produccion (prod ++ [fila])) ;;;
            descontar strip ("Producción desde pedido " ++ str_Z pid)%string
                      usuario ahora WarnFalloDescontar needs ;;;
            acreditar_terminado tipo_producto variante_producto
              (mask_prod tipo_producto variante_producto) qty ;;;
            guardar (con_pedidos (poner_estado pid "en_produccion" pedidos_base)) ;;;
            st_aviso (OkProduccionPedido pid) ;;;
            corta
        end
  end.

(** [int(desp["id_despacho"].max()) + 1], or 1 for an empty table. *)
Definition siguiente_id (desp : list Desp.fila) : Z :=
  match map Desp.id_despacho desp with
  | [] => 1
  | x :: r => fold_left Z.max r x + 1
  end.

(** Button "Despachar". *)
Definition despachar (pid : Z) (modo_row : Modo) (qty_row : Z)
    (usuario ahora : string) : M unit :=
  pedidos_base <- read_pedidos ;;
  match filter (fun r => Pedido.id r =? pid) pedidos_base with
  | [] => st_aviso (WarnPedidoNoEncontrado pid) ;;; corta
  | rb :: _ =>
      let tipo_prod := strip (Pedido.tipo_producto rb) in
      let variante_producto := strip (Pedido.variante_producto rb) in
      let solicitado := Pedido.cantidad rb in
      let qty := match modo_row with Completo => solicitado | Parcial => qty_row end in
      if qty <=? 0 then st_aviso WarnCantidadInvalida ;;; corta
      else
        prods <- read_productos ;;
        match indices (mask_prod tipo_prod variante_producto) 0 prods with
        | [] => st_aviso (WarnSinTerminados tipo_prod variante_producto) ;;; corta
        | idxp :: _ =>
            match nth_error prods idxp with
            | None => st_aviso Excepcion ;;; corta
            | Some fp =>
                let disp := Prod.stock_actual fp in
                if disp <? qty then
                  st_aviso (WarnTerminadosInsuficiente disp qty) ;;; corta
                else
                  let prods := en_fila idxp (Prod.con_stock_actual (disp - qty)) prods in
                  desp <- read_despachos ;;
                  let next_id := siguiente_id desp in
                  let fila_d :=
                    Desp.mk next_id ahora pid (Pedido.cliente rb) tipo_prod
                            variante_producto qty "" usuario in
                  let desp := desp ++ [fila_d] in
                  let estado :=
                    match modo_row with
                    | Completo => if qty >=? solicitado then "completado" else "confirmado"
                    | Parcial => "confirmado"
                    end in
                  guardar (con_productos prods) ;;;
                  guardar (con_despachos desp) ;;;
                  guardar (con_pedidos (poner_estado pid estado pedidos_base)) ;;;
                  st_aviso (OkDespacho pid) ;;;
                  corta
            end
        end
  end.

(** * Statements: predicates, traces and sample files *)

(** No line of the ledger is below zero. *)
Definition no_negativo (l : list Stock.fila) : Prop :=
  Forall (fun r => 0 <= Stock.stock_actual r) l.

(** The two operations that touch the ledger and its log. *)
Inductive Op :=
| OpDelta (tipo variante : string) (delta : Z) (proveedor : string)
          (es_entrada : bool) (ahora : string)
| OpMovimiento (fecha tipo_mov tipo variante : string) (cantidad : Z)
               (proveedor documento observaciones usuario : string).

Definition ejecutar_op (o : Op) (s : Archivos) : Archivos :=
  match o with
  | OpDelta t v d p e a => archivos (actualizar_stock t v d p e a s)
  | OpMovimiento f tm t v c p d o u =>
      archivos (add_movimiento f tm t v c p d o u s)
  end.

Definition ejecutar (ops : list Op) (s : Archivos) : Archivos :=
  fold_left (fun s o => ejecutar_op o s) ops s.

(** Mango 15 - virola 1 at 20, Chapita 15 at 3, one pending order of 10. *)
Definition archivos_ejemplo : Archivos :=
  mkArchivos
    [Cat.mk "Mango" "15 - virola 1" 50; Cat.mk "Chapita" "15" 50]
    [Stock.mk "Mango" "15 - virola 1" 50 20 None "";
     Stock.mk "Chapita" "15" 50 3 None ""]
    [] [] []
    [Pedido.mk 1 "2024-01-01 10:00:00" "Cliente" "pincel normal" "15 - virola 1"
               10 "2024-02-01" "pendiente" ""]
    [].

(** Two rows for Chapita 15 once the keys are trimmed. *)
Definition archivos_duplicados : Archivos :=
  con_stock_mp
    [Stock.mk "Mango" "15 - virola 1" 50 20 None "";
     Stock.mk "Chapita" "15" 50 3 None "";
     Stock.mk "Chapita" " 15 " 0 4 None "ACME"]
    archivos_ejemplo.

(** The text has no hyphen, so no separator [" - "] can start inside it. *)
Fixpoint sin_guion (s : string) : bool :=
  match s with
  | EmptyString => true
  | String c r => negb (Ascii.eqb c "-") && sin_guion r
  end.

(** The messages shown with [st.success]. *)
Definition es_exito (a : Aviso) : bool :=
  match a with
  | OkEntrada _ _ _ | OkAjuste _ | OkFusion | OkProduccion
  | OkProduccionPedido _ | OkDespacho _ => true
  | _ => false
  end.

Definition sin_exito (l : list Aviso) : Prop :=
  Forall (fun a => es_exito a = false) l.

(** A run that neither reads nor writes the order table. *)
Definition ajeno_a_pedidos {A} (m : M A) : Prop :=
  forall l s,
    m (con_pedidos l s)
    = mkRes (valor (m s)) (con_pedidos l (archivos (m s))) (avisos (m s)).

(** Files that agree on everything but the order table. *)
Definition salvo_pedidos (s1 s2 : Archivos) : Prop :=
  con_pedidos [] s1 = con_pedidos [] s2.

(** Two runs that, from such files, answer alike, show the same messages
    and end in such files. *)
Definition parejos {A} (m1 m2 : M A) : Prop :=
  forall s1 s2, salvo_pedidos s1 s2 ->
    valor (m1 s1) = valor (m2 s2)
    /\ avisos (m1 s1) = avisos (m2 s2)
    /\ salvo_pedidos (archivos (m1 s1)) (archivos (m2 s2)).

(** A run that neither reads nor writes the production log. *)
Definition ajeno_a_produccion {A} (m : M A) : Prop :=
  forall l s,
    m (con_produccion l s)
    = mkRes (valor (m s)) (con_produccion l (archivos (m s))) (avisos (m s)).

(** The order [q] is the order [p] in the state [e]: no other cell differs. *)
Definition con_estado_de (e : string) (p q : Pedido.fila) : Prop :=
  Pedido.id q = Pedido.id p
  /\ Pedido.fecha q = Pedido.fecha p
  /\ Pedido.cliente q = Pedido.cliente p
  /\ Pedido.tipo_producto q = Pedido.tipo_producto p
  /\ Pedido.variante_producto q = Pedido.variante_producto p
  /\ Pedido.cantidad q = Pedido.cantidad p
  /\ Pedido.fecha_entrega q = Pedido.fecha_entrega p
  /\ Pedido.nota q = Pedido.nota p
  /\ Pedido.estado q = e.

(** The order table [l'] is the table [l], row by row, with the orders of
    id [pid] in the state [e] and the others as they were. *)
Definition estado_puesto (pid : Z) (e : string) (l l' : list Pedido.fila) : Prop :=
  Forall2 (fun p q => if Pedido.id p =? pid then con_estado_de e p q else q = p)
          l l'.

(** The quantity of a per-order action: the whole order, or the number
    typed for a partial one. *)
Definition cantidad_de_accion (modo : Modo) (qty : Z) (rb : Pedido.fila) : Z :=
  match modo with Completo => Pedido.cantidad rb | Parcial => qty end.

(** The same orders with other states. *)
Definition con_estados (f : Pedido.fila -> string) (s : Archivos) : Archivos :=
  con_pedidos (map (fun r => Pedido.con_estado (f r) r) (pedidos s)) s.

(** Orders that are already completed and cancelled. *)
Definition archivos_completado : Archivos :=
  con_pedidos
    [Pedido.mk 1 "2024-01-01 10:00:00" "Cliente" "pincel normal" "15 - virola 1"
               10 "2024-02-01" "completado" "";
     Pedido.mk 2 "2024-01-02 10:00:00" "Otro" "pinceleta" "gris - 50"
               4 "2024-02-01" "cancelado" ""]
    archivos_ejemplo.

(** The completed order 1 of 10 units, with 10 units already produced
    for it. *)
Definition archivos_ya_producido : Archivos :=
  con_produccion
    [Produccion.mk "2024-02-01 08:00:00" "pincel normal" 10 "operario"
                   "Generado desde pedido 1" (Some "15 - virola 1")]
    archivos_completado.

(** The state written by a dispatch: decided by the mode. *)
Definition estado_despacho (modo_row : Modo) : string :=
  match modo_row with
  | Completo => "completado"
  | Parcial => "confirmado"
  end.

(** Order 1 asks for 10 units; 10 finished units are on hand. *)
Definition archivos_despacho : Archivos :=
  con_productos [Prod.mk "pincel normal" "15 - virola 1" 10] archivos_ejemplo.

(** Mango 15 - virola 1 at 0, no movement recorded. *)
Definition archivos_inicial : Archivos :=
  mkArchivos
    [Cat.mk "Mango" "15 - virola 1" 50; Cat.mk "Chapita" "15" 50]
    [Stock.mk "Mango" "15 - virola 1" 50 0 None "";
     Stock.mk "Chapita" "15" 50 0 None ""]
    [] [] [] [] [].

Definition clave_lt (a b : Clave) : Prop := clave_compare a b = Lt.

(** The cells of the group are neither all empty nor all filled. *)
Definition grupo_mixto (l : list (option string)) : bool :=
  existsb es_vacia l && negb (forallb es_vacia l).

(** * Properties *)

(** ** Lists: masks, indices and row updates *)

Lemma indices_length {A} (mask : A -> bool) (l : list A) (i : nat) :
  List.length (indices mask i l) = List.length (filter mask l).
Proof.
  revert i; induction l as [|r l IH]; intro i; simpl; [reflexivity|].
  destruct (mask r); simpl; rewrite IH; reflexivity.
Qed.

Lemma indices_ge {A} (mask : A -> bool) (l : list A) (i j : nat) :
  In j (indices mask i l) -> (i <= j)%nat.
Proof.
  revert i; induction l as [|r l IH]; intros i H; simpl in H; [contradiction|].
  destruct (mask r); simpl in H.
  - destruct H as [<-|H]; [lia|]. apply IH in H; lia.
  - apply IH in H; lia.
Qed.

Lemma indices_unico {A} (mask : A -> bool) (l : list A) (i j : nat) :
  indices mask i l = [j] ->
  exists r, nth_error l (j - i) = Some r /\ filter mask l = [r] /\ (i <= j)%nat.
Proof.
  revert i; induction l as [|r l IH]; intros i H; simpl in H; [discriminate|].
  simpl. destruct (mask r) eqn:Hm.
  - injection H as <- Hrest. exists r. rewrite Nat.sub_diag; simpl.
    split; [reflexivity|]. split; [|lia].
    f_equal. assert (Hl : List.length (filter mask l) = 0%nat)
      by (rewrite <- (indices_length mask l (S i)), Hrest; reflexivity).
    destruct (filter mask l); [reflexivity|discriminate].
  - destruct (IH _ H) as (x & Hn & Hf & Hle). exists x.
    replace (j - i)%nat with (S (j - S i)) by lia. simpl. auto with arith.
Qed.

Lemma indices_app_fin {A} (mask : A -> bool) (l : list A) (x : A) (i : nat) :
  filter mask l = [] -> mask x = true ->
  indices mask i (l ++ [x]) = [(i + List.length l)%nat].
Proof.
  revert i; induction l as [|r l IH]; intros i Hf Hx; simpl in *.
  - rewrite Hx, Nat.add_0_r; reflexivity.
  - destruct (mask r); [discriminate|]. rewrite IH by assumption.
    f_equal; lia.
Qed.

Lemma existsb_filter_nil {A} (mask : A -> bool) (l : list A) :
  existsb mask l = false <-> filter mask l = [].
Proof.
  induction l as [|r l IH]; simpl; [tauto|].
  destruct (mask r); simpl; [split; discriminate|exact IH].
Qed.

Lemma Forall_en_fila {A} (P : A -> Prop) (f : A -> A) (idx : nat) (l : list A) :
  (forall r, P r -> P (f r)) -> Forall P l -> Forall P (en_fila idx f l).
Proof.
  intros Hf; revert idx; induction l as [|r l IH]; intros idx H; simpl.
  - destruct idx; constructor.
  - inversion H; subst. destruct idx; constructor; auto.
Qed.

Lemma Forall_en_fila_pone {A} (P : A -> Prop) (f : A -> A) (idx : nat) (l : list A) :
  (forall r, P (f r)) -> Forall P l -> Forall P (en_fila idx f l).
Proof.
  intros Hf; revert idx; induction l as [|r l IH]; intros idx H; simpl.
  - destruct idx; constructor.
  - inversion H; subst. destruct idx; constructor; auto.
Qed.

(** ** The stock ledger never goes negative *)

Lemma no_negativo_normaliza (l : list Stock.fila) :
  no_negativo l -> no_negativo (map normaliza_stock l).
Proof.
  unfold no_negativo; intro H. apply Forall_map.
  eapply Forall_impl; [|exact H]. intros r Hr; exact Hr.
Qed.

Ltac abre_actualizar :=
  unfold actualizar_stock, read_stock_mp, read_movimientos, bind, leer, ret,
    st_aviso, guardar, corta; simpl.

(** A call either leaves the files as they were, or answers [True] and
    saves a stock table. *)
Lemma actualizar_stock_paso tipo variante delta proveedor es_entrada ahora s :
  no_negativo (stock_mp s) ->
  no_negativo (stock_mp (archivos
     (actualizar_stock tipo variante delta proveedor es_entrada ahora s))).
Proof.
  intro H. apply no_negativo_normaliza in H.
  abre_actualizar.
  set (st0 := map normaliza_stock (stock_mp s)) in *.
  assert (Hext : no_negativo (st0 ++ [Stock.mk tipo variante 0 0 None proveedor])).
  { apply Forall_app; split; [exact H|]. repeat constructor. simpl; lia. }
  assert (Hs : no_negativo (stock_mp s)).
  { unfold no_negativo, st0 in *. rewrite Forall_map in H.
    eapply Forall_impl; [|exact H]. intros r Hr; exact Hr. }
  destruct (existsb (mask_stock tipo variante) st0); simpl.
  all: match goal with
       | |- context [indices ?m 0 ?l] =>
           destruct (indices m 0 l) as [|idx [|? ?]]; simpl; try exact Hs
       end.
  all: match goal with
       | |- context [nth_error ?l ?i] =>
           destruct (nth_error l i) as [fila|]; simpl; try exact Hs
       end.
  all: destruct (Stock.stock_actual fila + delta <? 0) eqn:Hneg; simpl;
       try exact Hs.
  all: apply Z.ltb_ge in Hneg.
  all: destruct es_entrada; simpl;
       [destruct (no_vacio proveedor); simpl;
        [destruct (value_counts _) as [|[p n] ?]; simpl|]|].
  all: repeat (apply Forall_en_fila; [intros r Hr; exact Hr|]).
  all: apply Forall_en_fila_pone; [intro r; simpl; lia|]; assumption.
Qed.

Lemma add_movimiento_stock fecha tm t v c p d o u s :
  stock_mp (archivos (add_movimiento fecha tm t v c p d o u s)) = stock_mp s.
Proof. reflexivity. Qed.

Lemma ejecutar_no_negativo (ops : list Op) (s : Archivos) :
  no_negativo (stock_mp s) -> no_negativo (stock_mp (ejecutar ops s)).
Proof.
  unfold ejecutar. revert s; induction ops as [|o ops IH]; intros s H; simpl.
  - exact H.
  - apply IH. destruct o; simpl.
    + apply actualizar_stock_paso; exact H.
    + exact H.
Qed.

Lemma actualizar_stock_rechaza tipo variante delta proveedor es_entrada ahora s fila :
  filter (mask_stock tipo variante) (map normaliza_stock (stock_mp s)) = [fila] ->
  Stock.stock_actual fila + delta < 0 ->
  actualizar_stock tipo variante delta proveedor es_entrada ahora s
  = mkRes (Some (false, Some (Stock.stock_actual fila))) s [].
Proof.
  intros Hf Hneg. abre_actualizar.
  set (st0 := map normaliza_stock (stock_mp s)) in *.
  destruct (existsb (mask_stock tipo variante) st0) eqn:He.
  2:{ apply existsb_filter_nil in He. rewrite He in Hf; discriminate. }
  simpl.
  assert (Hl : List.length (indices (mask_stock tipo variante) 0 st0) = 1%nat)
    by (rewrite indices_length, Hf; reflexivity).
  destruct (indices (mask_stock tipo variante) 0 st0) as [|idx [|? ?]] eqn:Hi;
    try discriminate.
  destruct (indices_unico _ _ _ _ Hi) as (r & Hn & Hr & _).
  rewrite Hf in Hr; injection Hr as <-.
  rewrite Nat.sub_0_r in Hn; rewrite Hn; simpl.
  apply Z.ltb_lt in Hneg; rewrite Hneg. reflexivity.
Qed.

(** C2. Starting from a ledger without negative quantities, no sequence of
    [actualizar_stock] calls (interleaved or not with movement appends)
    produces a negative quantity; and a call on a uniquely resolved line
    whose result would be negative answers [(False, current quantity)] and
    leaves every file as it was. *)
Theorem C2_stock_nunca_negativo (s : Archivos) :
  no_negativo (stock_mp s) ->
  (forall ops, no_negativo (stock_mp (ejecutar ops s)))
  /\ (forall ops tipo variante delta proveedor es_entrada ahora fila,
         let s' := ejecutar ops s in
         filter (mask_stock tipo variante) (map normaliza_stock (stock_mp s')) = [fila] ->
         Stock.stock_actual fila + delta < 0 ->
         let r := actualizar_stock tipo variante delta proveedor es_entrada ahora s' in
         valor r = Some (false, Some (Stock.stock_actual fila))
         /\ archivos r = s').
Proof.
  intro H; split.
  - intro ops; apply ejecutar_no_negativo; exact H.
  - intros ops tipo variante delta proveedor es_entrada ahora fila s' Hf Hneg r.
    subst r. rewrite (actualizar_stock_rechaza _ _ _ _ _ _ _ _ Hf Hneg).
    split; reflexivity.
Qed.

Lemma C2_stock_nunca_negativo_witness :
  no_negativo
    (stock_mp (ejecutar [OpDelta "Chapita" "15" (-3) "" false "t1";
                         OpDelta "Chapita" "15" (-1) "" false "t2";
                         OpDelta "Mango" "15 - virola 1" (-21) "" false "t3"]
                        archivos_ejemplo))
  /\ valor (actualizar_stock "Chapita" "15" (-4) "" false "t" archivos_ejemplo)
     = Some (false, Some 3)
  /\ archivos (actualizar_stock "Chapita" "15" (-4) "" false "t" archivos_ejemplo)
     = archivos_ejemplo.
Proof.
  assert (H0 : no_negativo (stock_mp archivos_ejemplo))
    by (repeat constructor; simpl; lia).
  destruct (C2_stock_nunca_negativo archivos_ejemplo H0) as [Hseq Hrej].
  split; [apply Hseq|].
  apply (Hrej [] "Chapita" "15" (-4) "" false "t"
              (Stock.mk "Chapita" "15" 50 3 None "")).
  - reflexivity.
  - simpl; lia.
Defined.

(** C6. When more than one row of the stock table matches the key,
    [actualizar_stock] answers [(False, None)], reports the number of
    matching rows, and saves nothing. *)
Theorem C6_duplicados_sin_mutacion tipo variante delta proveedor es_entrada ahora s :
  let n := List.length (filter (mask_stock tipo variante)
                               (map normaliza_stock (stock_mp s))) in
  (1 < n)%nat ->
  actualizar_stock tipo variante delta proveedor es_entrada ahora s
  = mkRes (Some (false, None)) s [ErrFilasCoincidiendo n tipo variante].
Proof.
  intros n Hn. subst n. abre_actualizar.
  set (st0 := map normaliza_stock (stock_mp s)) in *.
  destruct (existsb (mask_stock tipo variante) st0) eqn:He.
  2:{ apply existsb_filter_nil in He. rewrite He in Hn; simpl in Hn; lia. }
  simpl. rewrite <- (indices_length _ st0 0) in *.
  destruct (indices (mask_stock tipo variante) 0 st0) as [|idx [|j l]];
    simpl in *; try lia.
  reflexivity.
Qed.

Lemma C6_duplicados_sin_mutacion_witness :
  actualizar_stock "Chapita" "15" 5 "ACME" true "t" archivos_duplicados
  = mkRes (Some (false, None)) archivos_duplicados
          [ErrFilasCoincidiendo 2 "Chapita" "15"].
Proof.
  apply (C6_duplicados_sin_mutacion "Chapita" "15" 5 "ACME" true "t"
                                    archivos_duplicados).
  simpl; lia.
Defined.

(** C9. With no row for the key and a negative delta, the call warns about
    the missing line, answers [(False, 0)] and saves nothing: the line
    created in memory is not persisted. *)
Theorem C9_linea_nueva_delta_negativo tipo variante delta proveedor es_entrada ahora s :
  filter (mask_stock tipo variante) (map normaliza_stock (stock_mp s)) = [] ->
  delta < 0 ->
  actualizar_stock tipo variante delta proveedor es_entrada ahora s
  = mkRes (Some (false, Some 0)) s [WarnSinCatalogo].
Proof.
  intros Hf Hneg. abre_actualizar.
  set (st0 := map normaliza_stock (stock_mp s)) in *.
  pose proof Hf as He. apply existsb_filter_nil in He. rewrite He; simpl.
  rewrite (indices_app_fin _ st0 _ 0 Hf)
    by (unfold mask_stock; simpl; rewrite !String.eqb_refl; reflexivity).
  simpl. rewrite nth_error_app2 by lia. rewrite Nat.sub_diag; simpl.
  apply Z.ltb_lt in Hneg; rewrite Hneg. reflexivity.
Qed.

Lemma C9_linea_nueva_delta_negativo_witness :
  actualizar_stock "Cerda" "15" (-1) "" false "t" archivos_ejemplo
  = mkRes (Some (false, Some 0)) archivos_ejemplo [WarnSinCatalogo].
Proof.
  apply (C9_linea_nueva_delta_negativo "Cerda" "15" (-1) "" false "t"
                                       archivos_ejemplo).
  - reflexivity.
  - lia.
Defined.

(** ** Recipe resolver *)

Lemma prefix_guion_sin_guion (m : string) :
  (forall c r, m = String c r -> c <> "-"%char) -> prefix "- " m = false.
Proof.
  intro H. destruct m as [|c r]; [reflexivity|].
  cbn [prefix]. destruct (ascii_dec "-" c) as [e|_]; [|reflexivity].
  exfalso. apply (H c r eq_refl). symmetry; exact e.
Qed.

Lemma sin_guion_cabeza (m : string) :
  sin_guion m = true -> forall c r, m = String c r -> c <> "-"%char.
Proof.
  intros H c r ->. simpl in H. apply andb_prop in H as [Hc _].
  intros ->. discriminate.
Qed.

Lemma prefix_sep_sin_guion (c : ascii) (m resto : string) :
  sin_guion m = true ->
  prefix " - " (String c (m ++ " - " ++ resto)) = false.
Proof.
  intros Hm. cbn [prefix]. destruct (ascii_dec " " c) as [_|_]; [|reflexivity].
  apply prefix_guion_sin_guion. intros c' r He.
  destruct m as [|c0 m0].
  - simpl in He. injection He as <- _. discriminate.
  - simpl in He. injection He as <- _.
    exact (sin_guion_cabeza _ Hm c0 m0 eq_refl).
Qed.

Lemma prefix_sep_sin_guion_fin (c : ascii) (m : string) :
  sin_guion m = true -> prefix " - " (String c m) = false.
Proof.
  intros Hm. cbn [prefix]. destruct (ascii_dec " " c) as [_|_]; [|reflexivity].
  apply prefix_guion_sin_guion. exact (sin_guion_cabeza _ Hm).
Qed.

Lemma split_desde_cons0 (sep : string) (c : ascii) (r : string) :
  split_desde sep 0 (String c r)
  = if prefix sep (String c r) then
      let '(p, ps) := split_desde sep (Nat.pred (String.length sep)) r in
      (EmptyString, p :: ps)
    else
      let '(p, ps) := split_desde sep 0 r in (String c p, ps).
Proof. reflexivity. Qed.

Lemma split_desde_consS (sep : string) (k : nat) (c : ascii) (r : string) :
  split_desde sep (S k) (String c r) = split_desde sep k r.
Proof. reflexivity. Qed.

Lemma prefix_sep_presente (resto : string) :
  prefix " - " (String " " (String "-" (String " " resto))) = true.
Proof.
  cbn [prefix].
  destruct (ascii_dec " " " ") as [_|n]; [|exfalso; apply n; reflexivity].
  destruct (ascii_dec "-" "-") as [_|n]; [|exfalso; apply n; reflexivity].
  destruct resto; reflexivity.
Qed.

Lemma split_desde_sin_guion (m resto : string) :
  sin_guion m = true ->
  split_desde " - " 0 (m ++ " - " ++ resto)
  = (m, let '(p, ps) := split_desde " - " 0 resto in p :: ps).
Proof.
  induction m as [|c m IH]; intro H.
  - change (("" ++ " - " ++ resto)%string)
      with (String " " (String "-" (String " " resto))).
    rewrite split_desde_cons0, prefix_sep_presente.
    change (Nat.pred (String.length " - ")) with 2%nat.
    rewrite !split_desde_consS.
    destruct (split_desde " - " 0 resto); reflexivity.
  - simpl in H. apply andb_prop in H as [Hc Hm].
    change ((String c m ++ " - " ++ resto)%string)
      with (String c (m ++ " - " ++ resto)%string).
    rewrite split_desde_cons0, (prefix_sep_sin_guion c m resto Hm).
    rewrite (IH Hm). reflexivity.
Qed.

Lemma split_desde_entero (m : string) :
  sin_guion m = true -> split_desde " - " 0 m = (m, []).
Proof.
  induction m as [|c m IH]; intro H; [reflexivity|].
  simpl in H. apply andb_prop in H as [Hc Hm].
  rewrite split_desde_cons0, (prefix_sep_sin_guion_fin c m Hm).
  rewrite (IH Hm). reflexivity.
Qed.

Lemma split_primero (m resto : string) :
  sin_guion m = true -> hd EmptyString (split " - " (m ++ " - " ++ resto)) = m.
Proof.
  intro H. unfold split. rewrite (split_desde_sin_guion m resto H).
  reflexivity.
Qed.

Lemma split_dos (a b : string) :
  sin_guion a = true -> sin_guion b = true ->
  split " - " (a ++ " - " ++ b) = [a; b].
Proof.
  intros Ha Hb. unfold split. rewrite (split_desde_sin_guion a b Ha).
  rewrite (split_desde_entero b Hb). reflexivity.
Qed.

Lemma no_vacio_sep (a b : string) : no_vacio (a ++ " - " ++ b) = true.
Proof. destruct a; reflexivity. Qed.

(** C5. [compute_mp_needs] is a function of its three arguments alone.  For
    ["pincel normal"] and a variant [medida ++ " - " ++ virola] it returns the
    Mango line of the whole variant and the Chapita line of [medida]; for
    ["pinceleta"] and [color ++ " - " ++ chapita] it returns the three
    pinceleta lines; for any other product type it returns no line.  The
    parts before the separator (and, for pinceleta, both parts, which must
    be non-empty) are free of hyphens, so that the separator is the one
    written. *)
Theorem C5_compute_mp_needs :
  (forall medida virola q,
      sin_guion medida = true ->
      compute_mp_needs "pincel normal" (medida ++ " - " ++ virola) q
      = [("Mango", (medida ++ " - " ++ virola)%string, q); ("Chapita", medida, q)])
  /\ (forall color chapita q,
         sin_guion color = true -> sin_guion chapita = true ->
         no_vacio color = true -> no_vacio chapita = true ->
         compute_mp_needs "pinceleta" (color ++ " - " ++ chapita) q
         = [("Manguito pinceleta", color, q);
            ("Chapita pinceleta", chapita, q);
            ("Cerda pinceleta", "estándar", q)])
  /\ (forall tipo_prod variante q,
         tipo_prod <> "pincel normal" -> tipo_prod <> "pinceleta" ->
         compute_mp_needs tipo_prod variante q = []).
Proof.
  repeat split.
  - intros medida virola q H. unfold compute_mp_needs.
    rewrite String.eqb_refl, no_vacio_sep; simpl andb; cbv iota.
    rewrite (split_primero medida virola H). reflexivity.
  - intros color chapita q Hc Hch Hnc Hnch. unfold compute_mp_needs.
    change ("pinceleta" =? "pincel normal")%string with false.
    rewrite String.eqb_refl, no_vacio_sep; simpl andb; cbv iota.
    rewrite (split_dos color chapita Hc Hch). rewrite Hnc, Hnch. reflexivity.
  - intros tipo_prod variante q H1 H2. unfold compute_mp_needs.
    apply String.eqb_neq in H1, H2. rewrite H1, H2. reflexivity.
Qed.

Lemma C5_compute_mp_needs_witness :
  compute_mp_needs "pincel normal" "15 - virola 1" 5
  = [("Mango", "15 - virola 1", 5); ("Chapita", "15", 5)]
  /\ compute_mp_needs "pinceleta" "blanco - 40" 7
     = [("Manguito pinceleta", "blanco", 7);
        ("Chapita pinceleta", "40", 7);
        ("Cerda pinceleta", "estándar", 7)]
  /\ compute_mp_needs "rodillo" "22 - azul" 3 = [].
Proof.
  destruct C5_compute_mp_needs as (Hn & Hp & Ho).
  split; [|split].
  - apply (Hn "15" "virola 1" 5); reflexivity.
  - apply (Hp "blanco" "40" 7); reflexivity.
  - apply (Ho "rodillo" "22 - azul" 3); discriminate.
Defined.

(** ** Runs of the script *)

Lemma bind_run {A B} (m : M A) (f : A -> M B) (s : Archivos) :
  bind m f s
  = match valor (m s) with
    | None => mkRes None (archivos (m s)) (avisos (m s))
    | Some a =>
        mkRes (valor (f a (archivos (m s)))) (archivos (f a (archivos (m s))))
              (avisos (m s) ++ avisos (f a (archivos (m s))))
    end.
Proof. reflexivity. Qed.

Lemma actualizar_stock_sin_exito tipo variante delta proveedor es_entrada ahora s :
  sin_exito (avisos (actualizar_stock tipo variante delta proveedor es_entrada ahora s)).
Proof.
  abre_actualizar.
  destruct (existsb _ _); simpl.
  all: match goal with
       | |- context [indices ?m 0 ?l] =>
           destruct (indices m 0 l) as [|idx [|? ?]]; simpl
       end.
  all: try match goal with
       | |- context [nth_error ?l ?i] =>
           destruct (nth_error l i) as [fila|]; simpl
       end.
  all: try match goal with
       | |- context [?a + ?d <? 0] => destruct (a + d <? 0); simpl
       end.
  all: try (destruct es_entrada; simpl;
       [destruct (no_vacio proveedor); simpl;
        [destruct (value_counts _) as [|[p n] ?]; simpl|]|]).
  all: repeat constructor.
Qed.

Lemma descontar_sin_exito limpia obs usuario ahora fallo items s :
  (forall t v, es_exito (fallo t v) = false) ->
  sin_exito (avisos (descontar limpia obs usuario ahora fallo items s)).
Proof.
  intro Hf. revert s; induction items as [|[[t v] c] resto IH]; intro s.
  - constructor.
  - cbn [descontar]. rewrite bind_run.
    pose proof (actualizar_stock_sin_exito (limpia t) (limpia v) (- c) "" false ahora s) as Ha.
    destruct (actualizar_stock (limpia t) (limpia v) (- c) "" false ahora s)
      as [[[ok q]|] s1 av1]; simpl in *; [|exact Ha].
    apply Forall_app; split; [exact Ha|].
    destruct ok; simpl.
    + apply IH.
    + repeat constructor. apply Hf.
Qed.

Lemma acreditar_terminado_sin_exito tipo variante mask cant s :
  sin_exito (avisos (acreditar_terminado tipo variante mask cant s)).
Proof.
  unfold acreditar_terminado, read_productos, bind, leer, st_aviso, corta, guardar.
  simpl.
  destruct (indices mask 0 _) as [|idx ?]; simpl; [repeat constructor|].
  destruct (nth_error _ idx); simpl; repeat constructor.
Qed.

Lemma sin_exito_no_In (l : list Aviso) (a : Aviso) :
  sin_exito l -> es_exito a = true -> ~ In a l.
Proof.
  intros H Ha Hin. unfold sin_exito in H. rewrite Forall_forall in H.
  apply H in Hin. congruence.
Qed.

Lemma poner_estado_In pid e l p :
  In p (poner_estado pid e l) -> Pedido.id p = pid -> Pedido.estado p = e.
Proof.
  unfold poner_estado. rewrite in_map_iff. intros (r & Hr & _) Hid.
  destruct (Pedido.id r =? pid) eqn:He; subst p.
  - reflexivity.
  - simpl in Hid. apply Z.eqb_neq in He. contradiction.
Qed.

Lemma poner_estado_puesto pid e l :
  estado_puesto pid e l (poner_estado pid e l).
Proof.
  unfold estado_puesto, poner_estado.
  induction l as [|p l IH]; cbn [map]; constructor; [|exact IH].
  destruct (Pedido.id p =? pid); [|reflexivity].
  unfold con_estado_de. repeat split; reflexivity.
Qed.

Lemma poner_estado_esta pid e l rb :
  In rb l -> Pedido.id rb = pid ->
  exists p, In p (poner_estado pid e l)
            /\ Pedido.id p = pid /\ Pedido.estado p = e.
Proof.
  intros Hin Hid. exists (Pedido.con_estado e rb).
  split; [|split; [exact Hid|reflexivity]].
  unfold poner_estado. apply in_map_iff. exists rb. split; [|exact Hin].
  rewrite (proj2 (Z.eqb_eq _ _) Hid). reflexivity.
Qed.

(** ** Runs that leave the production log alone *)

Lemma ajeno_prod_bind {A B} (m : M A) (f : A -> M B) :
  ajeno_a_produccion m -> (forall a, ajeno_a_produccion (f a)) ->
  ajeno_a_produccion (bind m f).
Proof.
  intros Hm Hf l s. unfold bind. rewrite !Hm. cbn [valor archivos avisos].
  destruct (valor (m s)) as [a|]; cbn [valor archivos avisos]; [|reflexivity].
  rewrite Hf. reflexivity.
Qed.

Lemma ajeno_prod_actualizar_stock t v d p e a :
  ajeno_a_produccion (actualizar_stock t v d p e a).
Proof.
  intros l s. abre_actualizar.
  destruct (existsb _ _); simpl.
  all: match goal with
       | |- context [indices ?m 0 ?l] =>
           destruct (indices m 0 l) as [|idx [|? ?]]; simpl; try reflexivity
       end.
  all: match goal with
       | |- context [nth_error ?l ?i] =>
           destruct (nth_error l i) as [fila|]; simpl; try reflexivity
       end.
  all: match goal with
       | |- context [?a + ?d <? 0] => destruct (a + d <? 0); simpl;
                                      try reflexivity
       end.
  all: destruct e; simpl; try reflexivity.
  all: destruct (no_vacio p); simpl; try reflexivity.
  all: destruct (value_counts _) as [|[? ?] ?]; reflexivity.
Qed.

Lemma ajeno_prod_add_movimiento f tm t v c p d o u :
  ajeno_a_produccion (add_movimiento f tm t v c p d o u).
Proof. intros l s. reflexivity. Qed.

Lemma ajeno_prod_descontar limpia obs usuario ahora fallo items :
  ajeno_a_produccion (descontar limpia obs usuario ahora fallo items).
Proof.
  induction items as [|[[t v] c] resto IH].
  - intros l s; reflexivity.
  - cbn [descontar]. apply ajeno_prod_bind; [apply ajeno_prod_actualizar_stock|].
    intros [ok q]. destruct ok; cbn [fst].
    + apply ajeno_prod_bind; [apply ajeno_prod_add_movimiento|]. intros _; exact IH.
    + intros l s; reflexivity.
Qed.

Lemma ajeno_prod_acreditar_terminado tipo variante mask cant :
  ajeno_a_produccion (acreditar_terminado tipo variante mask cant).
Proof.
  intros l s.
  unfold acreditar_terminado, read_productos, bind, leer, st_aviso, corta, guardar.
  simpl.
  destruct (indices mask 0 _) as [|idx ?]; simpl; [reflexivity|].
  destruct (nth_error _ idx); reflexivity.
Qed.

Lemma con_produccion_eta (s : Archivos) : con_produccion (produccion s) s = s.
Proof. destruct s; reflexivity. Qed.

Lemma ajeno_prod_conserva {A} (m : M A) (s : Archivos) :
  ajeno_a_produccion m -> produccion (archivos (m s)) = produccion s.
Proof.
  intro H. rewrite <- (con_produccion_eta s) at 1. rewrite H. reflexivity.
Qed.

(** ** Order to production *)

Lemma generar_produccion_casos pid modo qty usuario ahora s :
  let r := generar_produccion pid modo qty usuario ahora s in
  ~ In (OkProduccionPedido pid) (avisos r)
  \/ (pedidos (archivos r) = poner_estado pid "en_produccion" (pedidos s)
      /\ exists rb,
           In rb (pedidos s) /\ Pedido.id rb = pid
           /\ hd_error (filter (fun r => Pedido.id r =? pid) (pedidos s)) = Some rb
           /\ produccion (archivos r)
              = produccion s
                ++ [Produccion.mk ahora (strip (Pedido.tipo_producto rb))
                      (cantidad_de_accion modo qty rb) usuario
                      ("Generado desde pedido " ++ str_Z pid)%string
                      (Some (strip (Pedido.variante_producto rb)))]).
Proof.
  unfold generar_produccion, cantidad_de_accion.
  rewrite bind_run. unfold read_pedidos, read_stock_mp, read_produccion, leer, guardar.
  cbn [valor archivos avisos].
  destruct (filter (fun r => Pedido.id r =? pid) (pedidos s)) as [|rb resto] eqn:Hfil.
  { left. simpl. intros [H|[]]; discriminate. }
  assert (Hrb : In rb (pedidos s) /\ Pedido.id rb = pid).
  { assert (Hin : In rb (filter (fun r => Pedido.id r =? pid) (pedidos s)))
      by (rewrite Hfil; left; reflexivity).
    apply filter_In in Hin as [Hin He]. apply Z.eqb_eq in He. auto. }
  set (qty' := match modo with Completo => Pedido.cantidad rb | Parcial => qty end).
  destruct (qty' <=? 0).
  { left. simpl. intros [H|[]]; discriminate. }
  rewrite bind_run. cbn [valor archivos avisos].
  destruct (validar _ _) as [|f fs].
  2:{ left. simpl. intros [H|[]]; discriminate. }
  rewrite bind_run. cbn [valor archivos avisos].
  rewrite bind_run. cbn [valor archivos avisos].
  rewrite bind_run.
  match goal with |- context [descontar ?l ?o ?u ?a ?f ?it ?s0] =>
    pose proof (descontar_sin_exito l o u a f it s0 (fun _ _ => eq_refl)) as Hd;
    pose proof (ajeno_prod_conserva _ s0 (ajeno_prod_descontar l o u a f it)) as Hpd;
    destruct (descontar l o u a f it s0) as [[[]|] s1 av1]
  end; cbn [valor archivos avisos] in *.
  2:{ left. simpl. apply sin_exito_no_In; [exact Hd|reflexivity]. }
  rewrite bind_run.
  match goal with |- context [acreditar_terminado ?t ?v ?m ?c ?s0] =>
    pose proof (acreditar_terminado_sin_exito t v m c s0) as Ha;
    pose proof (ajeno_prod_conserva _ s0 (ajeno_prod_acreditar_terminado t v m c)) as Hpa;
    destruct (acreditar_terminado t v m c s0) as [[[]|] s2 av2]
  end; cbn [valor archivos avisos] in *.
  2:{ left. simpl. apply sin_exito_no_In; [|reflexivity].
      apply Forall_app; split; assumption. }
  right. cbv zeta. cbn [valor archivos avisos bind st_aviso corta pedidos
                        produccion con_pedidos].
  split; [reflexivity|]. exists rb.
  split; [apply Hrb|]. split; [apply Hrb|]. split; [reflexivity|].
  rewrite Hpa, Hpd. reflexivity.
Qed.

(** ** Runs that leave the order table alone *)

Lemma ajeno_bind {A B} (m : M A) (f : A -> M B) :
  ajeno_a_pedidos m -> (forall a, ajeno_a_pedidos (f a)) ->
  ajeno_a_pedidos (bind m f).
Proof.
  intros Hm Hf l s. unfold bind. rewrite !Hm. cbn [valor archivos avisos].
  destruct (valor (m s)) as [a|]; cbn [valor archivos avisos]; [|reflexivity].
  rewrite Hf. reflexivity.
Qed.

Lemma ajeno_actualizar_stock t v d p e a :
  ajeno_a_pedidos (actualizar_stock t v d p e a).
Proof.
  intros l s. abre_actualizar.
  destruct (existsb _ _); simpl.
  all: match goal with
       | |- context [indices ?m 0 ?l] =>
           destruct (indices m 0 l) as [|idx [|? ?]]; simpl; try reflexivity
       end.
  all: match goal with
       | |- context [nth_error ?l ?i] =>
           destruct (nth_error l i) as [fila|]; simpl; try reflexivity
       end.
  all: match goal with
       | |- context [?a + ?d <? 0] => destruct (a + d <? 0); simpl;
                                      try reflexivity
       end.
  all: destruct e; simpl; try reflexivity.
  all: destruct (no_vacio p); simpl; try reflexivity.
  all: destruct (value_counts _) as [|[? ?] ?]; reflexivity.
Qed.

Lemma ajeno_add_movimiento f tm t v c p d o u :
  ajeno_a_pedidos (add_movimiento f tm t v c p d o u).
Proof. intros l s. reflexivity. Qed.

Lemma ajeno_descontar limpia obs usuario ahora fallo items :
  ajeno_a_pedidos (descontar limpia obs usuario ahora fallo items).
Proof.
  induction items as [|[[t v] c] resto IH].
  - intros l s; reflexivity.
  - cbn [descontar]. apply ajeno_bind; [apply ajeno_actualizar_stock|].
    intros [ok q]. destruct ok; cbn [fst].
    + apply ajeno_bind; [apply ajeno_add_movimiento|]. intros _; exact IH.
    + intros l s; reflexivity.
Qed.

Lemma ajeno_acreditar_terminado tipo variante mask cant :
  ajeno_a_pedidos (acreditar_terminado tipo variante mask cant).
Proof.
  intros l s.
  unfold acreditar_terminado, read_productos, bind, leer, st_aviso, corta, guardar.
  simpl.
  destruct (indices mask 0 _) as [|idx ?]; simpl; [reflexivity|].
  destruct (nth_error _ idx); reflexivity.
Qed.

Lemma con_pedidos_eta (s : Archivos) :
  con_pedidos (pedidos s) (con_pedidos [] s) = s.
Proof. destruct s; reflexivity. Qed.

Lemma parejos_bind {A B} (m1 m2 : M A) (f1 f2 : A -> M B) :
  parejos m1 m2 -> (forall a, parejos (f1 a) (f2 a)) ->
  parejos (bind m1 f1) (bind m2 f2).
Proof.
  intros Hm Hf s1 s2 Hs. rewrite !bind_run.
  destruct (Hm s1 s2 Hs) as (Hv & Ha & Hr). rewrite Hv, Ha.
  destruct (valor (m2 s2)) as [a|]; cbn [valor archivos avisos]; [|auto].
  destruct (Hf a _ _ Hr) as (Hv' & Ha' & Hr'). rewrite Hv', Ha'. auto.
Qed.

Lemma parejos_ajeno {A} (m : M A) : ajeno_a_pedidos m -> parejos m m.
Proof.
  intros Hm s1 s2 Hs. unfold salvo_pedidos in Hs.
  pose proof (Hm (pedidos s1) (con_pedidos [] s1)) as E1.
  pose proof (Hm (pedidos s2) (con_pedidos [] s2)) as E2.
  rewrite con_pedidos_eta in E1, E2. rewrite E1, E2, Hs.
  cbn [valor archivos avisos]. repeat split; reflexivity.
Qed.

Lemma parejos_leer {T} (campo : Archivos -> T) :
  (forall l s, campo (con_pedidos l s) = campo s) -> parejos (leer campo) (leer campo).
Proof. intro H. apply parejos_ajeno. intros l s. unfold leer. rewrite H. reflexivity. Qed.

Lemma parejos_guardar_pedidos (l1 l2 : list Pedido.fila) :
  parejos (guardar (con_pedidos l1)) (guardar (con_pedidos l2)).
Proof.
  intros s1 s2 Hs. unfold guardar; cbn [valor archivos avisos].
  repeat split. unfold salvo_pedidos in *.
  change (con_pedidos [] s1 = con_pedidos [] s2). exact Hs.
Qed.

Lemma filter_id_con_estados (f : Pedido.fila -> string) pid (l : list Pedido.fila) :
  filter (fun r => Pedido.id r =? pid) (map (fun r => Pedido.con_estado (f r) r) l)
  = map (fun r => Pedido.con_estado (f r) r) (filter (fun r => Pedido.id r =? pid) l).
Proof.
  induction l as [|r l IH]; simpl; [reflexivity|].
  destruct (Pedido.id r =? pid); simpl; rewrite IH; reflexivity.
Qed.

Lemma salvo_pedidos_con_estados f s : salvo_pedidos (con_estados f s) s.
Proof. reflexivity. Qed.

Lemma generar_produccion_sin_mirar_estado f pid modo qty usuario ahora s :
  avisos (generar_produccion pid modo qty usuario ahora (con_estados f s))
  = avisos (generar_produccion pid modo qty usuario ahora s).
Proof.
  unfold generar_produccion, read_pedidos.
  match goal with
  | |- avisos (bind (leer pedidos) ?K _) = _ =>
      change (avisos (K (pedidos (con_estados f s)) (con_estados f s))
              = avisos (K (pedidos s) s))
  end.
  cbv beta. unfold con_estados at 1 2 3. cbn [pedidos con_pedidos].
  rewrite filter_id_con_estados.
  destruct (filter (fun r => Pedido.id r =? pid) (pedidos s)) as [|rb resto];
    [reflexivity|].
  cbn [map Pedido.con_estado Pedido.tipo_producto Pedido.variante_producto
       Pedido.cantidad].
  set (qty' := match modo with Completo => Pedido.cantidad rb | Parcial => qty end).
  destruct (qty' <=? 0); [reflexivity|].
  match goal with
  | |- avisos (?m1 _) = avisos (?m2 _) =>
      assert (H : parejos m1 m2); [|apply (H _ _ (salvo_pedidos_con_estados f s))]
  end.
  apply parejos_bind; [apply parejos_leer; reflexivity|]. intro stock_df.
  destruct (validar stock_df _).
  2:{ apply parejos_ajeno. intros ? ?; reflexivity. }
  apply parejos_bind; [apply parejos_leer; reflexivity|]. intro prod.
  apply parejos_bind; [apply parejos_ajeno; intros ? ?; reflexivity|]. intros _.
  apply parejos_bind; [apply parejos_ajeno, ajeno_descontar|]. intros _.
  apply parejos_bind; [apply parejos_ajeno, ajeno_acreditar_terminado|]. intros _.
  apply parejos_bind; [apply parejos_guardar_pedidos|]. intros _.
  apply parejos_ajeno. intros ? ?; reflexivity.
Qed.

Lemma generar_produccion_sin_mirar_produccion prod pid modo qty usuario ahora s :
  avisos (generar_produccion pid modo qty usuario ahora (con_produccion prod s))
  = avisos (generar_produccion pid modo qty usuario ahora s).
Proof.
  unfold generar_produccion, read_pedidos.
  match goal with
  | |- avisos (bind (leer pedidos) ?K _) = _ =>
      change (avisos (K (pedidos s) (con_produccion prod s))
              = avisos (K (pedidos s) s))
  end.
  cbv beta.
  destruct (filter (fun r => Pedido.id r =? pid) (pedidos s)) as [|rb resto];
    [reflexivity|].
  set (qty' := match modo with Completo => Pedido.cantidad rb | Parcial => qty end).
  destruct (qty' <=? 0); [reflexivity|].
  unfold read_stock_mp.
  match goal with
  | |- avisos (bind (leer ?c) ?K _) = _ =>
      change (avisos (K (c s) (con_produccion prod s)) = avisos (K (c s) s))
  end.
  cbv beta.
  destruct (validar _ _); [|reflexivity].
  unfold read_produccion.
  match goal with
  | |- avisos (bind (leer produccion) (fun p => bind (guardar (con_produccion (p ++ [?fila]))) ?K) _) = _ =>
      change (avisos (K tt (con_produccion (prod ++ [fila]) s))
              = avisos (K tt (con_produccion (produccion s ++ [fila]) s)));
      assert (HK : ajeno_a_produccion (K tt))
  end.
  { cbv beta.
    apply ajeno_prod_bind; [apply ajeno_prod_descontar|]. intros _.
    apply ajeno_prod_bind; [apply ajeno_prod_acreditar_terminado|]. intros _.
    apply ajeno_prod_bind; [intros ? ?; reflexivity|]. intros _.
    apply ajeno_prod_bind; [intros ? ?; reflexivity|]. intros _.
    intros ? ?; reflexivity. }
  rewrite !HK. reflexivity.
Qed.

(** C10. Whenever "Generar produccion" reports success for order [pid], that
    order is in the saved order table in the state ["en_produccion"]: the
    saved table is the one read at the start, row by row, with the state of
    every row of that id overwritten and nothing else changed.  The run
    never looks at the states: it succeeds just the same when the states of
    the orders are replaced by any others.  Nor is there a cap: the record
    of the quantity of this run is appended to the production log whatever
    that log already holds, and the run succeeds just the same when the log
    is replaced by any other. *)
Theorem C10_generar_produccion_estado pid modo qty usuario ahora s :
  let r := generar_produccion pid modo qty usuario ahora s in
  In (OkProduccionPedido pid) (avisos r) ->
  pedidos (archivos r) = poner_estado pid "en_produccion" (pedidos s)
  /\ (exists rb, In rb (pedidos s) /\ Pedido.id rb = pid)
  /\ (forall p, In p (pedidos (archivos r)) -> Pedido.id p = pid ->
                Pedido.estado p = "en_produccion")
  /\ (forall f,
         In (OkProduccionPedido pid)
            (avisos (generar_produccion pid modo qty usuario ahora
                                        (con_estados f s))))
  /\ (exists p, In p (pedidos (archivos r))
                /\ Pedido.id p = pid /\ Pedido.estado p = "en_produccion")
  /\ estado_puesto pid "en_produccion" (pedidos s) (pedidos (archivos r))
  /\ (exists rb fila,
         hd_error (filter (fun x => Pedido.id x =? pid) (pedidos s)) = Some rb
         /\ produccion (archivos r) = produccion s ++ [fila]
         /\ Produccion.cantidad fila = cantidad_de_accion modo qty rb)
  /\ (forall f prod,
         In (OkProduccionPedido pid)
            (avisos (generar_produccion pid modo qty usuario ahora
                       (con_produccion prod (con_estados f s))))).
Proof.
  intros r Hok.
  destruct (generar_produccion_casos pid modo qty usuario ahora s)
    as [Hno|[Hp (rb & Hin & Hid & Hhd & Hprod)]].
  - contradiction.
  - fold r in Hp, Hprod.
    split; [exact Hp|]. split; [exists rb; auto|].
    split; [rewrite Hp; intros p; apply poner_estado_In|].
    split; [intro f; rewrite generar_produccion_sin_mirar_estado; exact Hok|].
    split; [rewrite Hp; apply (poner_estado_esta _ _ _ rb Hin Hid)|].
    split; [rewrite Hp; apply poner_estado_puesto|].
    split.
    + eexists rb, _. split; [exact Hhd|]. split; [exact Hprod|reflexivity].
    + intros f prod.
      rewrite generar_produccion_sin_mirar_produccion,
        generar_produccion_sin_mirar_estado.
      exact Hok.
Qed.

Lemma C10_generar_produccion_estado_witness :
  let r := generar_produccion 1 Parcial 3 "operario" "2024-03-01 09:00:00"
                              archivos_ya_producido in
  (map Pedido.estado (pedidos archivos_ya_producido) = ["completado"; "cancelado"]
   /\ map Pedido.cantidad (pedidos archivos_ya_producido) = [10; 4]
   /\ map Produccion.cantidad (produccion archivos_ya_producido) = [10])
  /\ pedidos (archivos r)
     = poner_estado 1 "en_produccion" (pedidos archivos_ya_producido)
  /\ (exists rb, In rb (pedidos archivos_ya_producido) /\ Pedido.id rb = 1)
  /\ (forall p, In p (pedidos (archivos r)) -> Pedido.id p = 1 ->
                Pedido.estado p = "en_produccion")
  /\ (forall f,
         In (OkProduccionPedido 1)
            (avisos (generar_produccion 1 Parcial 3 "operario"
                       "2024-03-01 09:00:00" (con_estados f archivos_ya_producido))))
  /\ (exists p, In p (pedidos (archivos r))
                /\ Pedido.id p = 1 /\ Pedido.estado p = "en_produccion")
  /\ estado_puesto 1 "en_produccion" (pedidos archivos_ya_producido)
                   (pedidos (archivos r))
  /\ (exists rb fila,
         hd_error (filter (fun x => Pedido.id x =? 1)
                          (pedidos archivos_ya_producido)) = Some rb
         /\ produccion (archivos r) = produccion archivos_ya_producido ++ [fila]
         /\ Produccion.cantidad fila = cantidad_de_accion Parcial 3 rb)
  /\ (forall f prod,
         In (OkProduccionPedido 1)
            (avisos (generar_produccion 1 Parcial 3 "operario"
                       "2024-03-01 09:00:00"
                       (con_produccion prod (con_estados f archivos_ya_producido))))).
Proof.
  intro r. split; [repeat split; reflexivity|].
  apply (C10_generar_produccion_estado 1 Parcial 3 "operario"
           "2024-03-01 09:00:00" archivos_ya_producido).
  vm_compute. left; reflexivity.
Defined.

(** ** Dispatch *)

Lemma despachar_casos pid modo qty usuario ahora s :
  let r := despachar pid modo qty usuario ahora s in
  ~ In (OkDespacho pid) (avisos r)
  \/ (pedidos (archivos r) = poner_estado pid (estado_despacho modo) (pedidos s)
      /\ exists rb,
           In rb (pedidos s) /\ Pedido.id rb = pid
           /\ hd_error (filter (fun r => Pedido.id r =? pid) (pedidos s)) = Some rb
           /\ despachos (archivos r)
              = despachos s
                ++ [Desp.mk (siguiente_id (despachos s)) ahora pid
                      (Pedido.cliente rb) (strip (Pedido.tipo_producto rb))
                      (strip (Pedido.variante_producto rb))
                      (cantidad_de_accion modo qty rb) "" usuario]).
Proof.
  unfold despachar, cantidad_de_accion.
  rewrite bind_run. unfold read_pedidos, read_productos, read_despachos, leer, guardar.
  cbn [valor archivos avisos].
  destruct (filter (fun r => Pedido.id r =? pid) (pedidos s)) as [|rb resto] eqn:Hfil.
  { left. simpl. intros [H|[]]; discriminate. }
  assert (Hrb : In rb (pedidos s) /\ Pedido.id rb = pid).
  { assert (Hin : In rb (filter (fun r => Pedido.id r =? pid) (pedidos s)))
      by (rewrite Hfil; left; reflexivity).
    apply filter_In in Hin as [Hin He]. apply Z.eqb_eq in He. auto. }
  set (qty' := match modo with Completo => Pedido.cantidad rb | Parcial => qty end).
  destruct (qty' <=? 0).
  { left. simpl. intros [H|[]]; discriminate. }
  rewrite bind_run. cbn [valor archivos avisos].
  destruct (indices _ 0 (productos s)) as [|idxp ?].
  { left. simpl. intros [H|[]]; discriminate. }
  destruct (nth_error (productos s) idxp) as [fp|].
  2:{ left. simpl. intros [H|[]]; discriminate. }
  destruct (Prod.stock_actual fp <? qty').
  { left. simpl. intros [H|[]]; discriminate. }
  right. cbv zeta.
  cbn [valor archivos avisos bind st_aviso corta pedidos despachos
       con_pedidos con_despachos con_productos].
  split.
  - destruct modo; cbn [estado_despacho]; [|reflexivity].
    subst qty'. replace (Pedido.cantidad rb >=? Pedido.cantidad rb) with true
      by (symmetry; apply Z.geb_le; lia).
    reflexivity.
  - exists rb. split; [apply Hrb|]. split; [apply Hrb|].
    split; reflexivity.
Qed.

(** C3, as the code has it.  Whenever "Despachar" reports success for
    order [pid], that order is in the saved order table in the state
    ["completado"] when the mode is Completo (the quantity dispatched is
    then the quantity requested) and ["confirmado"] when the mode is
    Parcial, whatever the quantity dispatched: the saved table is the one
    read at the start, row by row, with the state of every row of that id
    overwritten and nothing else changed; and one dispatch of the quantity
    of the action is appended to the dispatch log. *)
Theorem C3_despachar_estado_por_modo pid modo qty usuario ahora s :
  let r := despachar pid modo qty usuario ahora s in
  In (OkDespacho pid) (avisos r) ->
  pedidos (archivos r) = poner_estado pid (estado_despacho modo) (pedidos s)
  /\ (forall p, In p (pedidos (archivos r)) -> Pedido.id p = pid ->
                Pedido.estado p = estado_despacho modo)
  /\ (exists p, In p (pedidos (archivos r))
                /\ Pedido.id p = pid /\ Pedido.estado p = estado_despacho modo)
  /\ estado_puesto pid (estado_despacho modo) (pedidos s) (pedidos (archivos r))
  /\ (exists rb d,
         hd_error (filter (fun x => Pedido.id x =? pid) (pedidos s)) = Some rb
         /\ despachos (archivos r) = despachos s ++ [d]
         /\ Desp.pedido_id d = pid
         /\ Desp.cantidad d = cantidad_de_accion modo qty rb).
Proof.
  intros r Hok.
  destruct (despachar_casos pid modo qty usuario ahora s)
    as [Hno|[Hp (rb & Hin & Hid & Hhd & Hdesp)]].
  - contradiction.
  - fold r in Hp, Hdesp.
    split; [exact Hp|].
    split; [rewrite Hp; intros p; apply poner_estado_In|].
    split; [rewrite Hp; apply (poner_estado_esta _ _ _ rb Hin Hid)|].
    split; [rewrite Hp; apply poner_estado_puesto|].
    eexists rb, _. split; [exact Hhd|]. split; [exact Hdesp|].
    split; reflexivity.
Qed.

Lemma C3_despachar_estado_por_modo_witness :
  let r := despachar 1 Parcial 10 "operario" "2024-03-01 09:00:00"
                     archivos_despacho in
  pedidos (archivos r)
  = poner_estado 1 (estado_despacho Parcial) (pedidos archivos_despacho)
  /\ (forall p, In p (pedidos (archivos r)) -> Pedido.id p = 1 ->
                Pedido.estado p = estado_despacho Parcial)
  /\ (exists p, In p (pedidos (archivos r))
                /\ Pedido.id p = 1 /\ Pedido.estado p = estado_despacho Parcial)
  /\ estado_puesto 1 (estado_despacho Parcial) (pedidos archivos_despacho)
                   (pedidos (archivos r))
  /\ (exists rb d,
         hd_error (filter (fun x => Pedido.id x =? 1)
                          (pedidos archivos_despacho)) = Some rb
         /\ despachos (archivos r) = despachos archivos_despacho ++ [d]
         /\ Desp.pedido_id d = 1
         /\ Desp.cantidad d = cantidad_de_accion Parcial 10 rb).
Proof.
  apply (C3_despachar_estado_por_modo 1 Parcial 10 "operario"
           "2024-03-01 09:00:00" archivos_despacho).
  vm_compute. left; reflexivity.
Defined.

(** C3 as claimed fails: a Parcial dispatch of the whole requested quantity,
    and two Parcial dispatches of 4 and 6 against a request of 10, both
    succeed and leave the order ["confirmado"]. *)
Lemma C3_counterexample :
  let r := despachar 1 Parcial 10 "operario" "t1" archivos_despacho in
  let r1 := despachar 1 Parcial 4 "operario" "t1" archivos_despacho in
  let r2 := despachar 1 Parcial 6 "operario" "t2" (archivos r1) in
  (avisos r = [OkDespacho 1]
   /\ map Desp.cantidad (despachos (archivos r)) = [10]
   /\ map Pedido.cantidad (pedidos (archivos r)) = [10]
   /\ map Pedido.estado (pedidos (archivos r)) = ["confirmado"])
  /\ (avisos r1 = [OkDespacho 1] /\ avisos r2 = [OkDespacho 1]
      /\ map Desp.cantidad (despachos (archivos r2)) = [4; 6]
      /\ map Pedido.estado (pedidos (archivos r2)) = ["confirmado"])
  /\ ~ (forall pid modo qty usuario ahora s p,
          In (OkDespacho pid) (avisos (despachar pid modo qty usuario ahora s)) ->
          In p (pedidos (archivos (despachar pid modo qty usuario ahora s))) ->
          Pedido.id p = pid ->
          Pedido.estado p
          = if (match modo with Completo => Pedido.cantidad p | Parcial => qty end)
               >=? Pedido.cantidad p
            then "completado" else "confirmado").
Proof.
  split; [|split].
  - vm_compute. repeat split; reflexivity.
  - vm_compute. repeat split; reflexivity.
  - intro H.
    specialize (H 1 Parcial 10 "operario" "t1" archivos_despacho
                  (Pedido.mk 1 "2024-01-01 10:00:00" "Cliente" "pincel normal"
                             "15 - virola 1" 10 "2024-02-01" "confirmado" "")).
    assert (Hc : "confirmado" = "completado"); [|discriminate Hc].
    apply H.
    + vm_compute. left; reflexivity.
    + vm_compute. left; reflexivity.
    + reflexivity.
Qed.

(** ** Production with a stock shortage *)

(** C1 fails on the page "Produccion / Salidas".  With Mango at 20 and
    Chapita at 3, registering 5 units of "pincel normal" 15 - virola 1 is
    refused for lack of Chapita, and the stock, the movement log and the
    finished goods are untouched, but the production record written in
    step 1 stays in the production table.  The same request made from an
    order ("Generar produccion") validates first and changes no file. *)
Theorem C1_produccion_registrada_sin_stock :
  let r := registrar_produccion "pincel normal" "15 - virola 1" 5 true []
             "" "operario" "2024-03-01 09:00:00" archivos_ejemplo in
  let r' := generar_produccion 1 Parcial 5 "operario" "2024-03-01 09:00:00"
              archivos_ejemplo in
  (valor r = None
   /\ avisos r = [ErrFaltaStock [Insuficiente "Chapita" "15" 3 5]]
   /\ stock_mp (archivos r) = stock_mp archivos_ejemplo
   /\ movimientos (archivos r) = movimientos archivos_ejemplo
   /\ productos (archivos r) = productos archivos_ejemplo
   /\ produccion archivos_ejemplo = []
   /\ produccion (archivos r)
      = [Produccion.mk "2024-03-01 09:00:00" "pincel normal" 5 "operario" ""
                       (Some "15 - virola 1")])
  /\ (avisos r' = [WarnFaltaMP [Insuficiente "Chapita" "15" 3 5]]
      /\ archivos r' = archivos_ejemplo).
Proof. vm_compute. repeat split; reflexivity. Qed.

(** ** First entry of a supplier *)

(** C4 fails on the supplier.  The entry of 20 from "ACME" leaves the line
    at 20 with its last-entry time set and appends one ENTRADA movement of
    20, but the most frequent supplier keeps its previous (empty) value:
    it is computed from the movement log before the movement of this entry
    is appended.  Only a second entry makes it "ACME".  A line that
    [actualizar_stock] creates itself does start with the given supplier. *)
Theorem C4_primera_entrada_sin_proveedor :
  let r := registrar_entrada "Mango" "15 - virola 1" 20 "2024-03-01 09:00:00"
             "ACME" "" "" "operario" "2024-03-01 09:00:00" archivos_inicial in
  let r2 := registrar_entrada "Mango" "15 - virola 1" 5 "2024-03-02 09:00:00"
              "ACME" "" "" "operario" "2024-03-02 09:00:00" (archivos r) in
  let r3 := actualizar_stock "Cerda" "15" 20 "ACME" true "2024-03-01 09:00:00"
              archivos_inicial in
  (avisos r = [OkEntrada "Mango" "15 - virola 1" (Some 20)]
   /\ stock_mp (archivos r)
      = [Stock.mk "Mango" "15 - virola 1" 50 20 (Some "2024-03-01 09:00:00") "";
         Stock.mk "Chapita" "15" 50 0 None ""]
   /\ movimientos (archivos r)
      = [Mov.mk "2024-03-01 09:00:00" "ENTRADA" "Mango" "15 - virola 1" 20
                "ACME" "" "" "operario"])
  /\ map Stock.proveedor_mas_frecuente (stock_mp (archivos r2)) = ["ACME"; ""]
  /\ map Stock.proveedor_mas_frecuente (stock_mp (archivos r3)) = [""; ""; "ACME"].
Proof. vm_compute. repeat split; reflexivity. Qed.

(** ** Manual adjustment of zero *)

(** C8 fails on the manual adjustment.  The form starts at 0 and accepts
    it: [actualizar_stock] succeeds with delta 0 and an AJUSTE movement of
    quantity 0 is appended.  The entry form (minimum 1), the manual
    consumption lines (kept only if positive) and the order actions
    (refused if not positive) do exclude 0. *)
Theorem C8_ajuste_cero_registra_movimiento :
  let r := aplicar_ajuste "Chapita" "15" 0 "Ajuste manual" "operario"
             "2024-03-01 09:00:00" archivos_ejemplo in
  avisos r = [OkAjuste (Some 3)]
  /\ stock_mp (archivos r) = stock_mp archivos_ejemplo
  /\ movimientos (archivos r)
     = [Mov.mk "2024-03-01 09:00:00" "AJUSTE" "Chapita" "15" 0 "" ""
               "Ajuste manual" "operario"].
Proof. vm_compute. repeat split; reflexivity. Qed.

(** ** Merge of duplicates: trimming *)

Lemma rstrip_cons (c : ascii) (r : string) :
  rstrip (String c r)
  = match rstrip r with
    | EmptyString => if es_espacio c then EmptyString else String c EmptyString
    | r' => String c r'
    end.
Proof. reflexivity. Qed.

Lemma rstrip_idem (s : string) : rstrip (rstrip s) = rstrip s.
Proof.
  induction s as [|c r IH]; [reflexivity|].
  rewrite rstrip_cons. destruct (rstrip r) as [|d r'] eqn:Hr.
  - destruct (es_espacio c) eqn:Hc; [reflexivity|].
    rewrite rstrip_cons. cbn [rstrip]. rewrite Hc. reflexivity.
  - rewrite rstrip_cons, IH. reflexivity.
Qed.

Lemma lstrip_cabeza (s : string) :
  lstrip s = EmptyString
  \/ exists c r, lstrip s = String c r /\ es_espacio c = false.
Proof.
  induction s as [|c r IH]; [left; reflexivity|].
  cbn [lstrip]. destruct (es_espacio c) eqn:Hc; [exact IH|].
  right. exists c, r. auto.
Qed.

Lemma lstrip_rstrip_lstrip (s : string) :
  lstrip (rstrip (lstrip s)) = rstrip (lstrip s).
Proof.
  destruct (lstrip_cabeza s) as [->|(c & r & -> & Hc)]; [reflexivity|].
  rewrite rstrip_cons. destruct (rstrip r); rewrite ?Hc; cbn [lstrip];
    rewrite Hc; reflexivity.
Qed.

Lemma strip_idem (s : string) : strip (strip s) = strip s.
Proof.
  unfold strip. rewrite lstrip_rstrip_lstrip. apply rstrip_idem.
Qed.

Lemma normaliza_stock_idem (r : Stock.fila) :
  normaliza_stock (normaliza_stock r) = normaliza_stock r.
Proof.
  unfold normaliza_stock, Stock.con_clave; simpl. rewrite !strip_idem.
  reflexivity.
Qed.

(** ** Merge of duplicates: order of the group keys *)

Lemma ascii_compare_refl (c : ascii) : Ascii.compare c c = Eq.
Proof. unfold Ascii.compare. apply N.compare_refl. Qed.

Lemma ascii_compare_lt_trans (a b c : ascii) :
  Ascii.compare a b = Lt -> Ascii.compare b c = Lt -> Ascii.compare a c = Lt.
Proof.
  unfold Ascii.compare. rewrite !N.compare_lt_iff. apply N.lt_trans.
Qed.

Lemma string_compare_refl (s : string) : String.compare s s = Eq.
Proof.
  induction s as [|c s IH]; simpl; [reflexivity|].
  rewrite ascii_compare_refl. exact IH.
Qed.

Lemma string_compare_lt_trans (a b c : string) :
  String.compare a b = Lt -> String.compare b c = Lt -> String.compare a c = Lt.
Proof.
  revert b c; induction a as [|x a IH]; intros [|y b] [|z c]; simpl;
    try discriminate; try reflexivity.
  destruct (Ascii.compare x y) eqn:Hxy; try discriminate;
    destruct (Ascii.compare y z) eqn:Hyz; try discriminate; intros H1 H2.
  - apply Ascii.compare_eq_iff in Hxy, Hyz. subst.
    rewrite ascii_compare_refl. eapply IH; eassumption.
  - apply Ascii.compare_eq_iff in Hxy. subst. rewrite Hyz. reflexivity.
  - apply Ascii.compare_eq_iff in Hyz. subst. rewrite Hxy. reflexivity.
  - rewrite (ascii_compare_lt_trans _ _ _ Hxy Hyz). reflexivity.
Qed.

Lemma clave_compare_eq (a b : Clave) : clave_compare a b = Eq -> a = b.
Proof.
  destruct a as [a1 a2], b as [b1 b2]. unfold clave_compare; simpl.
  destruct (String.compare a1 b1) eqn:H1; try discriminate.
  intro H2. apply String.compare_eq_iff in H1, H2. subst. reflexivity.
Qed.

Lemma clave_compare_refl (a : Clave) : clave_compare a a = Eq.
Proof.
  unfold clave_compare. rewrite !string_compare_refl. reflexivity.
Qed.

Lemma clave_compare_gt (a b : Clave) :
  clave_compare a b = Gt -> clave_lt b a.
Proof.
  destruct a as [a1 a2], b as [b1 b2]. unfold clave_lt, clave_compare; simpl.
  rewrite (String.compare_antisym a1 b1), (String.compare_antisym a2 b2).
  destruct (String.compare b1 a1); simpl; try discriminate; [|reflexivity].
  destruct (String.compare b2 a2); simpl; try discriminate; reflexivity.
Qed.

Lemma clave_lt_trans (a b c : Clave) : clave_lt a b -> clave_lt b c -> clave_lt a c.
Proof.
  destruct a as [a1 a2], b as [b1 b2], c as [c1 c2].
  unfold clave_lt, clave_compare; simpl.
  destruct (String.compare a1 b1) eqn:H1; try discriminate;
    destruct (String.compare b1 c1) eqn:H2; try discriminate; intros H3 H4.
  - apply String.compare_eq_iff in H1, H2. subst.
    rewrite string_compare_refl. eapply string_compare_lt_trans; eassumption.
  - apply String.compare_eq_iff in H1. subst. rewrite H2. reflexivity.
  - apply String.compare_eq_iff in H2. subst. rewrite H1. reflexivity.
  - rewrite (string_compare_lt_trans _ _ _ H1 H2). reflexivity.
Qed.

Lemma clave_lt_irrefl (a : Clave) : ~ clave_lt a a.
Proof. unfold clave_lt. rewrite clave_compare_refl. discriminate. Qed.

Lemma inserta_clave_In (k x : Clave) (l : list Clave) :
  In x (inserta_clave k l) -> x = k \/ In x l.
Proof.
  induction l as [|h t IH]; simpl.
  - intros [<-|[]]; auto.
  - destruct (clave_compare k h).
    + auto.
    + intros [<-|H]; auto.
    + intros [<-|H]; auto. destruct (IH H); auto.
Qed.

Lemma inserta_clave_ordena (k : Clave) (l : list Clave) :
  StronglySorted clave_lt l -> StronglySorted clave_lt (inserta_clave k l).
Proof.
  induction l as [|h t IH]; intro H; simpl.
  - repeat constructor.
  - inversion H as [|? ? Ht Hh]; subst.
    destruct (clave_compare k h) eqn:Hc.
    + exact H.
    + constructor; [exact H|]. constructor; [exact Hc|].
      eapply Forall_impl; [|exact Hh]. intros x Hx.
      eapply clave_lt_trans; eassumption.
    + constructor; [apply IH; exact Ht|].
      apply Forall_forall. intros x Hx.
      apply inserta_clave_In in Hx as [->|Hx].
      * apply clave_compare_gt; exact Hc.
      * rewrite Forall_forall in Hh. apply Hh; exact Hx.
Qed.

Lemma claves_ordenadas (base : list Stock.fila) :
  StronglySorted clave_lt (claves base).
Proof.
  unfold claves. induction (map clave base) as [|k l IH]; simpl.
  - constructor.
  - apply inserta_clave_ordena; exact IH.
Qed.

Lemma claves_In (base : list Stock.fila) (k : Clave) :
  In k (claves base) -> In k (map clave base).
Proof.
  unfold claves. induction (map clave base) as [|h l IH]; simpl; [tauto|].
  intro H. apply inserta_clave_In in H as [->|H]; auto.
Qed.

Lemma ordenadas_fijas (K : list Clave) :
  StronglySorted clave_lt K -> fold_right inserta_clave [] K = K.
Proof.
  induction K as [|k l IH]; intro H; [reflexivity|].
  inversion H as [|? ? Hl Hk]; subst. simpl. rewrite (IH Hl).
  destruct l as [|h t]; [reflexivity|].
  simpl. inversion Hk as [|? ? Hkh _]; subst. unfold clave_lt in Hkh.
  rewrite Hkh. reflexivity.
Qed.

Lemma ordenadas_NoDup (K : list Clave) :
  StronglySorted clave_lt K -> NoDup K.
Proof.
  induction 1 as [|k l Hl IH Hk]; constructor; [|exact IH].
  intro Hin. rewrite Forall_forall in Hk. apply (clave_lt_irrefl k).
  apply Hk; exact Hin.
Qed.

(** ** Merge of duplicates: groups of a table with one row per key *)

Lemma tiene_clave_iff (k : Clave) (r : Stock.fila) :
  tiene_clave k r = true <-> clave r = k.
Proof.
  destruct k as [t v]. unfold tiene_clave, clave; simpl.
  rewrite andb_true_iff, !String.eqb_eq. split.
  - intros [-> ->]; reflexivity.
  - intro H; injection H; auto.
Qed.

Section UnaFilaPorClave.
Variable F : Clave -> Stock.fila.
Hypothesis F_clave : forall k, clave (F k) = k.

Lemma filter_clave_ausente (k : Clave) (K : list Clave) :
  ~ In k K -> filter (tiene_clave k) (map F K) = [].
Proof.
  induction K as [|h t IH]; intro H; simpl; [reflexivity|].
  destruct (tiene_clave k (F h)) eqn:He.
  - apply tiene_clave_iff in He. rewrite F_clave in He.
    exfalso; apply H; left; exact He.
  - apply IH. intro Hin; apply H; right; exact Hin.
Qed.

Lemma filter_clave_unica (k : Clave) (K : list Clave) :
  NoDup K -> In k K -> filter (tiene_clave k) (map F K) = [F k].
Proof.
  induction 1 as [|h t Hh Ht IH]; intro Hin; [destruct Hin|].
  simpl. destruct (tiene_clave k (F h)) eqn:He.
  - apply tiene_clave_iff in He. rewrite F_clave in He. subst h.
    rewrite (filter_clave_ausente k t Hh). reflexivity.
  - destruct Hin as [->|Hin].
    + assert (Ht' : tiene_clave k (F k) = true)
        by (apply tiene_clave_iff; apply F_clave).
      congruence.
    + apply IH; exact Hin.
Qed.
End UnaFilaPorClave.

Lemma agg_first_uno (p : string) : agg_first [p] = p.
Proof. destruct p; reflexivity. Qed.

(** ** Merge of duplicates: the maximum of the dates and its exception *)

Lemma max_texto_None (l : list (option string)) (x : string) :
  max_texto x l = None <-> existsb es_vacia l = true.
Proof.
  revert x; induction l as [|[y|] r IH]; intro x;
    cbn [max_texto existsb es_vacia orb].
  - split; discriminate.
  - apply IH.
  - split; reflexivity.
Qed.

Lemma agg_max_fecha_None (l : list (option string)) :
  agg_max_fecha l = None <-> grupo_mixto l = true.
Proof.
  unfold grupo_mixto.
  destruct l as [|[x|] r];
    cbn [agg_max_fecha existsb forallb es_vacia orb andb negb].
  - split; discriminate.
  - rewrite andb_true_r, <- (max_texto_None r x).
    destruct (max_texto x r); cbn [option_map]; split; congruence.
  - destruct (forallb es_vacia r); cbn [negb]; split; congruence.
Qed.

Lemma agg_max_fecha_uno (u : option string) : agg_max_fecha [u] = Some u.
Proof. destruct u; reflexivity. Qed.

Lemma agrega_clave (k : Clave) (grupo : list Stock.fila) (r : Stock.fila) :
  agrega k grupo = Some r -> clave r = k.
Proof.
  unfold agrega. destruct (agg_max_fecha _); [|discriminate].
  intro H; injection H as <-. destruct k; reflexivity.
Qed.

Lemma agrega_None (k : Clave) (grupo : list Stock.fila) :
  agrega k grupo = None
  <-> grupo_mixto (map Stock.ultima_entrada grupo) = true.
Proof.
  rewrite <- agg_max_fecha_None. unfold agrega.
  destruct (agg_max_fecha _); split; congruence.
Qed.

Lemma agrega_uno (k : Clave) (grupo : list Stock.fila) (r : Stock.fila) :
  agrega k grupo = Some r -> agrega k [r] = Some r.
Proof.
  unfold agrega.
  destruct (agg_max_fecha (map Stock.ultima_entrada grupo)) as [u|]; [|discriminate].
  intro H; injection H as <-.
  cbn [map Stock.stock_minimo Stock.stock_actual Stock.ultima_entrada
       Stock.proveedor_mas_frecuente].
  rewrite agg_max_fecha_uno, agg_first_uno. reflexivity.
Qed.

(** ** Merge of duplicates: all the groups *)

Lemma todas_map_Some {A B} (f : A -> option B) (F : A -> B) (K : list A) :
  (forall k, In k K -> f k = Some (F k)) -> todas (map f K) = Some (map F K).
Proof.
  induction K as [|k K IH]; intro H; cbn [map todas]; [reflexivity|].
  rewrite (H k (or_introl eq_refl)), IH; [reflexivity|].
  intros k' Hk'. apply H. right; exact Hk'.
Qed.

Lemma todas_Some {A B} (f : A -> option B) (d : A -> B) (K : list A) (a : list B) :
  todas (map f K) = Some a ->
  a = map (fun k => match f k with Some r => r | None => d k end) K
  /\ forall k, In k K -> f k = Some (match f k with Some r => r | None => d k end).
Proof.
  revert a; induction K as [|k K IH]; intros a H; cbn [map todas] in H.
  - injection H as <-. split; [reflexivity|intros k []].
  - destruct (f k) as [r|] eqn:Hk; [|discriminate].
    destruct (todas (map f K)) as [a'|]; [|discriminate]. injection H as <-.
    destruct (IH a' eq_refl) as [Ha Hin]. split.
    + cbn [map]. rewrite Hk. f_equal. exact Ha.
    + intros k' [<-|Hk']; [rewrite Hk; reflexivity|apply Hin; exact Hk'].
Qed.

Lemma todas_None {A B} (f : A -> option B) (K : list A) :
  todas (map f K) = None <-> exists k, In k K /\ f k = None.
Proof.
  induction K as [|k K IH]; cbn [map todas].
  - split; [discriminate|intros (k & [] & _)].
  - destruct (f k) as [r|] eqn:Hk.
    + destruct (todas (map f K)) as [a|].
      * split; [discriminate|]. intros (k' & [<-|Hin] & Hn); [congruence|].
        apply proj2 in IH. discriminate IH. exists k'; auto.
      * split; [|reflexivity]. intros _.
        destruct (proj1 IH eq_refl) as (k' & Hin & Hn).
        exists k'; split; [right; exact Hin|exact Hn].
    + split; [|reflexivity]. intros _.
      exists k; split; [left; reflexivity|exact Hk].
Qed.

Lemma agrupar_Some (base a : list Stock.fila) :
  agrupar base = Some a ->
  exists F : Clave -> Stock.fila,
    (forall k, clave (F k) = k)
    /\ a = map F (claves base)
    /\ forall k, In k (claves base) ->
         agrega k (filter (tiene_clave k) base) = Some (F k).
Proof.
  unfold agrupar. intro H.
  apply (todas_Some _ (fun k => Stock.mk (fst k) (snd k) 0 0 None "")) in H.
  destruct H as [Ha Hin].
  eexists. split; [|split; [exact Ha|exact Hin]].
  intro k. cbv beta.
  destruct (agrega k (filter (tiene_clave k) base)) eqn:E.
  - apply (agrega_clave _ _ _ E).
  - destruct k; reflexivity.
Qed.

Lemma agrupar_None (base : list Stock.fila) :
  agrupar base = None
  <-> exists k, In k (claves base)
                /\ grupo_mixto (map Stock.ultima_entrada
                                    (filter (tiene_clave k) base)) = true.
Proof.
  unfold agrupar. rewrite todas_None. split; intros (k & Hk & H); exists k;
    (split; [exact Hk|]).
  - apply (proj1 (agrega_None k _)), H.
  - apply (proj2 (agrega_None k _)), H.
Qed.

Lemma claves_de_filas (F : Clave -> Stock.fila) (K : list Clave) :
  (forall k, clave (F k) = k) -> StronglySorted clave_lt K ->
  claves (map F K) = K.
Proof.
  intros HF HK. unfold claves. rewrite map_map.
  rewrite (map_ext _ (fun k => k) HF), map_id.
  apply ordenadas_fijas, HK.
Qed.

Lemma claves_agrupar (base a : list Stock.fila) :
  agrupar base = Some a -> claves a = claves base.
Proof.
  intro H. destruct (agrupar_Some _ _ H) as (F & HF & -> & _).
  apply claves_de_filas; [exact HF|apply claves_ordenadas].
Qed.

Lemma normaliza_agrupar (base a : list Stock.fila) :
  agrupar (map normaliza_stock base) = Some a -> map normaliza_stock a = a.
Proof.
  intro H. destruct (agrupar_Some _ _ H) as (F & HF & -> & _).
  rewrite map_map. apply map_ext_in. intros k Hk.
  apply claves_In in Hk. rewrite map_map in Hk.
  apply in_map_iff in Hk as (r & Hr & _).
  specialize (HF k). destruct (F k) as [t v m q u p].
  unfold clave in HF, Hr. cbn [Stock.tipo Stock.variante] in HF.
  rewrite <- Hr in HF. injection HF as -> ->.
  unfold normaliza_stock, Stock.con_clave.
  cbn [Stock.tipo Stock.variante Stock.stock_minimo Stock.stock_actual
       Stock.ultima_entrada Stock.proveedor_mas_frecuente].
  rewrite !strip_idem. reflexivity.
Qed.

Lemma agrupar_idem (base a : list Stock.fila) :
  agrupar base = Some a -> agrupar a = Some a.
Proof.
  intro H. pose proof (claves_agrupar _ _ H) as HK.
  destruct (agrupar_Some _ _ H) as (F & HF & Ha & Hin).
  unfold agrupar. rewrite HK. subst a. apply todas_map_Some.
  intros k Hk.
  rewrite (filter_clave_unica F HF k (claves base)
             (ordenadas_NoDup _ (claves_ordenadas base)) Hk).
  apply (agrega_uno k (filter (tiene_clave k) base)), Hin, Hk.
Qed.

Lemma fusion_idem (base a : list Stock.fila) :
  agrupar (map normaliza_stock base) = Some a ->
  agrupar (map normaliza_stock a) = Some a.
Proof.
  intro H. rewrite (normaliza_agrupar _ _ H). apply (agrupar_idem _ _ H).
Qed.

Lemma fusionar_duplicados_run (s : Archivos) :
  fusionar_duplicados s
  = let base := map normaliza_stock (stock_mp s) in
    if hay_duplicados base then
      match agrupar base with
      | Some a => mkRes None (con_stock_mp a s) [OkFusion]
      | None => mkRes None s [Excepcion]
      end
    else mkRes (Some tt) s [].
Proof.
  unfold fusionar_duplicados, read_stock_mp, bind, leer, guardar, st_aviso,
    corta, ret; cbn [valor archivos avisos].
  destruct (hay_duplicados (map normaliza_stock (stock_mp s))); [|reflexivity].
  destruct (agrupar (map normaliza_stock (stock_mp s))); reflexivity.
Qed.

(** C7. The merge of duplicates is idempotent.  Pressing "Fusionar
    duplicados" a second time leaves every file as the first press left it.
    When the aggregation (group by [tipo] and [variante], maximum of the
    minimum stock, sum of the stock, latest entry, first supplier) gives a
    table, the first press saves it where there were duplicates, and the
    aggregation of that table, saved and read again, gives it again.  When
    the aggregation raises, the first press saves nothing and shows the
    exception.  It raises exactly when the rows of some key hold both a
    date of last entry and an empty one. *)
Theorem C7_fusionar_duplicados_idempotente (s : Archivos) :
  let r1 := fusionar_duplicados s in
  let s1 := archivos r1 in
  let base := map normaliza_stock (stock_mp s) in
  archivos (fusionar_duplicados s1) = s1
  /\ match agrupar base with
     | Some a =>
         agrupar (map normaliza_stock a) = Some a
         /\ (hay_duplicados base = true ->
             r1 = mkRes None (con_stock_mp a s) [OkFusion])
     | None =>
         s1 = s
         /\ (hay_duplicados base = true -> r1 = mkRes None s [Excepcion])
     end
  /\ (agrupar base = None
      <-> exists k, In k (claves base)
                    /\ grupo_mixto (map Stock.ultima_entrada
                                        (filter (tiene_clave k) base)) = true).
Proof.
  intros r1 s1 base. split; [|split; [|apply agrupar_None]].
  - subst s1 r1. rewrite (fusionar_duplicados_run s). cbv zeta. fold base.
    destruct (hay_duplicados base) eqn:Hd.
    + destruct (agrupar base) as [a|] eqn:Ha; cbn [archivos].
      * rewrite fusionar_duplicados_run. cbv zeta. cbn [stock_mp con_stock_mp].
        rewrite (normaliza_agrupar _ _ Ha), (agrupar_idem _ _ Ha).
        destruct (hay_duplicados a); reflexivity.
      * rewrite fusionar_duplicados_run. cbv zeta. fold base.
        rewrite Hd, Ha. reflexivity.
    + cbn [archivos]. rewrite fusionar_duplicados_run. cbv zeta. fold base.
      rewrite Hd. reflexivity.
  - subst s1 r1. rewrite (fusionar_duplicados_run s). cbv zeta. fold base.
    destruct (agrupar base) as [a|] eqn:Ha.
    + split; [apply (fusion_idem _ _ Ha)|]. intros ->. reflexivity.
    + split; [destruct (hay_duplicados base); reflexivity|].
      intros ->. reflexivity.
Qed.
